(** * CachyOS updater: version discovery, artifact location, checksum lookup

    A shallow embedding of [modules/updaters/CachyOS.py] and the properties
    of its specification.

    Modelling conventions.
    - A Python [str] is a [string]; a character stands for a code point
      below 256, where [\d] is exactly [0-9] and the Unicode white-space and
      line-boundary tables reduce to the sets listed at [py_isspace] and
      [py_islinebreak].
    - A Python value that may be [None] is an [obj].
    - A call either returns or raises: [result].  Exceptions raised by the
      source carry their message; exceptions raised by the interpreter or a
      library ([TypeError] of [re.match] and of [>]) carry none.
    - Methods run in the monad [M] over the process [state]: the two
      [functools.cache] dictionaries (keyed by the identity of [self]), the
      log of issued HTTP requests and a counter of executed cached bodies.
    - A parsed page is observed through [select] only. *)

From stdpp Require Import base option list strings gmap.
From Stdlib Require Import Ascii String NArith Lia.

Local Open Scope N_scope.
Local Open Scope nat_scope.

(** ** Python values, exceptions and results *)

Module Py.

Inductive obj : Type :=
| PyNone : obj
| PyStr : string -> obj.

Inductive exn_class : Type :=
| VersionNotFoundError
| ValueError
| ConnectionError
| TypeError
| RequestException.

Record exn : Type := mk_exn {
  exn_cls : exn_class;
  exn_msg : option string
}.

Inductive result (A : Type) : Type :=
| Ok : A -> result A
| Raise : exn -> result A.

Arguments Ok {A} _.
Arguments Raise {A} _.

(** [raise Cls("msg")] as written in the source. *)
Definition raise_msg {A} (c : exn_class) (m : string) : result A :=
  Raise (mk_exn c (Some m)).

(** An exception raised by the interpreter or a library. *)
Definition raise_rt {A} (c : exn_class) : result A :=
  Raise (mk_exn c None).

Definition rbind {A B} (r : result A) (k : A -> result B) : result B :=
  match r with
  | Ok a => k a
  | Raise e => Raise e
  end.

(** [f"{x}"]: a [str] formats as itself, [None] as ["None"]. *)
Definition format (o : obj) : string :=
  match o with
  | PyNone => "None"
  | PyStr s => s
  end.

(** [a > b]: defined between two strings (code-point lexicographic
    order), a [TypeError] as soon as one side is [None]. *)
Definition gt (a b : obj) : result bool :=
  match a, b with
  | PyStr x, PyStr y =>
      Ok (match String.compare x y with Gt => true | _ => false end)
  | _, _ => raise_rt TypeError
  end.

(** The loop of the builtin [max]: the running maximum is replaced only
    by an item that compares strictly greater. *)
Fixpoint max_loop (maxitem : obj) (rest : list obj) : result obj :=
  match rest with
  | [] => Ok maxitem
  | item :: rest' =>
      rbind (gt item maxitem)
            (fun c => max_loop (if c then item else maxitem) rest')
  end.

Definition max (items : list obj) : result obj :=
  match items with
  | [] => raise_rt ValueError
  | first :: rest => max_loop first rest
  end.

End Py.
Export Py.

Notation "'let!' x ':=' c 'in' k" := (rbind c (fun x => k))
  (at level 10, x name, c at level 100, k at level 200).

(** ** Characters and strings *)

Definition code (c : ascii) : N := N_of_ascii c.

Definition in_range (lo hi : N) (c : ascii) : bool :=
  ((lo <=? code c) && (code c <=? hi))%N.

(** [\d] of a [str] pattern. *)
Definition is_digit (c : ascii) : bool := in_range 48 57 c.

(** White space of [str.split()]: TAB LF VT FF CR, FS GS RS US, SPACE,
    NEL, NBSP. *)
Definition py_isspace (c : ascii) : bool :=
  in_range 9 13 c || in_range 28 32 c
  || (code c =? 133)%N || (code c =? 160)%N.

(** Line boundaries of [str.splitlines()]: LF VT FF CR, FS GS RS, NEL. *)
Definition py_islinebreak (c : ascii) : bool :=
  in_range 10 13 c || in_range 28 30 c || (code c =? 133)%N.

(** [str.lower()] on one character: A-Z and the upper-case Latin-1 letters
    (all of C0-DE but the multiplication sign D7) move up by 32. *)
Definition lower_char (c : ascii) : ascii :=
  if in_range 65 90 c || in_range 192 214 c || in_range 216 222 c
  then ascii_of_N (code c + 32)
  else c.

Fixpoint lower (s : string) : string :=
  match s with
  | EmptyString => EmptyString
  | String c s' => String (lower_char c) (lower s')
  end.

(** ** Regular expressions: the fragment [re.match] is called with *)

Inductive regex : Type :=
| Digit : regex                       (* \d *)
| Lit : ascii -> regex                (* a literal character *)
| Cat : regex -> regex -> regex       (* r1 r2 *)
| Rep : nat -> regex -> regex.        (* r{n} *)

(** Match [r] at the start of [s]; the unmatched rest on success.  The
    fragment has neither alternation nor open repetition, so a match is
    unique and no backtracking is involved. *)
Fixpoint match_at (r : regex) (s : string) : option string :=
  match r with
  | Digit =>
      match s with
      | String c s' => if is_digit c then Some s' else None
      | EmptyString => None
      end
  | Lit a =>
      match s with
      | String c s' => if Ascii.eqb c a then Some s' else None
      | EmptyString => None
      end
  | Cat r1 r2 =>
      match match_at r1 s with
      | Some s' => match_at r2 s'
      | None => None
      end
  | Rep n r1 =>
      Nat.iter n
        (fun k s0 => match match_at r1 s0 with
                     | Some s' => k s'
                     | None => None
                     end)
        Some s
  end.

(** [re.match(pattern, string)]: anchored at the start only; the result is
    used for its truth value.  A [None] subject is a [TypeError]. *)
Definition re_match (r : regex) (subject : obj) : result bool :=
  match subject with
  | PyNone => raise_rt TypeError
  | PyStr s => Ok (bool_decide (is_Some (match_at r s)))
  end.

(** [r"\d{6}/"] *)
Definition version_pattern : regex := Cat (Rep 6 Digit) (Lit "/").

(** ** Markup *)

(** A [bs4] tag, reduced to its attribute dictionary. *)
Record Tag : Type := mk_Tag { attrs : gmap string string }.

(** [tag.get(key)]: the attribute value, [None] when absent. *)
Definition Tag_get (t : Tag) (key : string) : obj :=
  match attrs t !! key with
  | Some value => PyStr value
  | None => PyNone
  end.

(** A parsed document, observed through the CSS selectors asked of it:
    [select soup sel] is the list of matching tags in document order. *)
Definition BeautifulSoup : Type := string -> list Tag.

Definition select (soup : BeautifulSoup) (selector : string) : list Tag :=
  soup selector.

Record Response : Type := mk_Response {
  status_code : nat;
  content : string;
  text : string
}.

(** ** Module constants *)

Definition DOMAIN : string := "https://cdn.cachyos.org".
Definition DOWNLOAD_PAGE_URL : string := DOMAIN +:+ "/ISO".
Definition FILE_NAME : string := "cachyos-[[EDITION]]-linux-[[VER]].iso".

(** ** The updater instance *)

Record CachyOS : Type := mk_CachyOS {
  self_id : nat;
  valid_editions : list string;
  edition : string;
  file_path : string;
  download_page : Response;
  soup_download_page : BeautifulSoup
}.

(** ** Version extraction *)

(** The list comprehension of [_get_latest_version]: the condition is
    evaluated on every link in turn, the [title] only where it holds. *)
Fixpoint version_numbers_of (download_links : list Tag) : result (list obj) :=
  match download_links with
  | [] => Ok []
  | link :: rest =>
      let! m := re_match version_pattern (Tag_get link "href") in
      if (m : bool)
      then let! tl := version_numbers_of rest in
           Ok (Tag_get link "title" :: tl)
      else version_numbers_of rest
  end.

(** The body of [_get_latest_version], as run on a cache miss. *)
Definition _get_latest_version_body (self : CachyOS) : result obj :=
  let download_links :=
    select (soup_download_page self) "table#list tbody tr td.link a" in
  match download_links with
  | [] => raise_msg VersionNotFoundError
            "We were not able to parse the download page"
  | _ :: _ =>
      let! version_numbers := version_numbers_of download_links in
      match version_numbers with
      | [] => raise_msg VersionNotFoundError
                "No valid version numbers found in the download links"
      | _ :: _ => Py.max version_numbers
      end
  end.

(** ** Checksum manifest lookup *)

(** [str.splitlines()]: [cur] is the line read so far.  A boundary closes
    the current line (CR LF counts as one boundary); the end of the text
    closes it only when it is not empty. *)
Fixpoint splitlines_from (cur s : string) : list string :=
  match s with
  | EmptyString => if String.eqb cur "" then [] else [cur]
  | String c s' =>
      if py_islinebreak c
      then cur :: match s' with
                  | String c' s2 =>
                      if Ascii.eqb c "013" && Ascii.eqb c' "010"
                      then splitlines_from "" s2
                      else splitlines_from "" s'
                  | EmptyString => splitlines_from "" s'
                  end
      else splitlines_from (cur +:+ String c "") s'
  end.

Definition splitlines (s : string) : list string := splitlines_from "" s.

(** [str.split()] without arguments: the maximal runs of characters that
    are not white space. *)
Fixpoint split_from (cur s : string) : list string :=
  match s with
  | EmptyString => if String.eqb cur "" then [] else [cur]
  | String c s' =>
      if py_isspace c
      then if String.eqb cur "" then split_from "" s'
           else cur :: split_from "" s'
      else split_from (cur +:+ String c "") s'
  end.

Definition split (s : string) : list string := split_from "" s.

(** The [for] loop of [_parse_sha256_hash] over the remaining lines, with
    the [raise] that follows it. *)
Fixpoint parse_lines (lines : list string) (filename : string)
  : result string :=
  match lines with
  | [] => raise_msg ValueError
            ("Hash not found for the specified file: " +:+ filename)
  | line :: rest =>
      let parts := split line in
      if (List.length parts =? 2) && String.eqb (nth 1 parts "") filename
      then Ok (nth 0 parts "")
      else parse_lines rest filename
  end.

Definition _parse_sha256_hash (self : CachyOS)
  (hash_file_content filename : string) : result string :=
  parse_lines (splitlines hash_file_content) filename.

(** ** Process state and the method monad *)

Record state : Type := mk_state {
  (** the dictionary of [@cache] on [_get_latest_version] *)
  cache_latest_version : gmap nat obj;
  (** the dictionary of [@cache] on [_get_download_link] *)
  cache_download_link : gmap nat string;
  (** how many times the body of a cached method has been executed *)
  cached_body_runs : nat;
  (** the URLs requested so far, latest first *)
  requests_log : list string;
  (** the identity the next created object receives *)
  next_id : nat
}.

Definition initial_state : state := mk_state ∅ ∅ 0 [] 0.

Definition M (A : Type) : Type := state -> result A * state.

Definition ret {A} (a : A) : M A := fun s => (Ok a, s).

Definition throw {A} (c : exn_class) (m : string) : M A :=
  fun s => (raise_msg c m, s).

Definition lift {A} (r : result A) : M A := fun s => (r, s).

Definition bind {A B} (m : M A) (k : A -> M B) : M B :=
  fun s =>
    match m s with
    | (Ok a, s') => k a s'
    | (Raise e, s') => (Raise e, s')
    end.

Notation "'let*' x ':=' c 'in' k" := (bind c (fun x => k))
  (at level 10, x name, c at level 100, k at level 200).

Definition count_body_run (s : state) : state :=
  mk_state (cache_latest_version s) (cache_download_link s)
           (S (cached_body_runs s)) (requests_log s) (next_id s).

(** The body of a decorated method, counted where it is entered: the
    count is part of the body, whatever the decorator does with it. *)
Definition entered {A} (body : M A) : M A :=
  fun s => body (count_body_run s).

(** [functools.cache] around a method of no argument but [self]: a hit
    returns the stored value and does not touch the body; a miss runs the
    body and stores what it returns; a raising body stores nothing. *)
Definition functools_cache {A}
  (lookup : state -> option A) (store : A -> state -> state)
  (body : M A) : M A :=
  fun s =>
    match lookup s with
    | Some v => (Ok v, s)
    | None =>
        match body s with
        | (Ok v, s') => (Ok v, store v s')
        | (Raise e, s') => (Raise e, s')
        end
    end.

Definition store_latest_version (self : CachyOS) (v : obj) (s : state)
  : state :=
  mk_state (<[self_id self := v]> (cache_latest_version s))
           (cache_download_link s) (cached_body_runs s) (requests_log s)
           (next_id s).

Definition store_download_link (self : CachyOS) (v : string) (s : state)
  : state :=
  mk_state (cache_latest_version s)
           (<[self_id self := v]> (cache_download_link s))
           (cached_body_runs s) (requests_log s) (next_id s).

(** One execution of the body of [_get_latest_version]. *)
Definition _get_latest_version_run (self : CachyOS) : M obj :=
  entered (lift (_get_latest_version_body self)).

Definition _get_latest_version (self : CachyOS) : M obj :=
  functools_cache
    (fun s => cache_latest_version s !! self_id self)
    (store_latest_version self)
    (_get_latest_version_run self).

(** One execution of the body of [_get_download_link]. *)
Definition _get_download_link_body (self : CachyOS) : M string :=
  entered
    (let* latest_version := _get_latest_version self in
     ret (DOWNLOAD_PAGE_URL +:+ "/" +:+ edition self +:+ "/"
          +:+ format latest_version +:+ "/cachyos-" +:+ edition self
          +:+ "-linux-" +:+ format latest_version +:+ ".iso")).

Definition _get_download_link (self : CachyOS) : M string :=
  functools_cache
    (fun s => cache_download_link s !! self_id self)
    (store_download_link self)
    (_get_download_link_body self).

(** ** The inherited helpers and the hash check *)

(** [str.replace(old, new)] for a non-empty [old]: occurrences are replaced
    from left to right without overlap; [skip] counts the characters of a
    replaced occurrence that are still to be dropped. *)
Fixpoint replace_from (skip : nat) (old new s : string) : string :=
  match s with
  | EmptyString => EmptyString
  | String c s' =>
      match skip with
      | S k => replace_from k old new s'
      | O =>
          if String.prefix old s
          then new +:+ replace_from (String.length old - 1) old new s'
          else String c (replace_from 0 old new s')
      end
  end.

Definition replace (old new s : string) : string := replace_from 0 old new s.

(** Modelled from the spec: [GenericUpdater.__init__] is not among the
    sources; the parent type only holds the path and its normalisation
    helpers, so its constructor records [file_path] and does nothing
    else. *)
Definition GenericUpdater_init (file_path : string) : M unit := ret tt.

(** Modelled from the spec: [_get_complete_normalized_file_path] is
    inherited from [GenericUpdater], which is not among the sources; the
    local file name is the template with the edition and the resolved
    version substituted. *)
Definition _get_complete_normalized_file_path (self : CachyOS)
  (absolute : bool) : M string :=
  let* latest_version := _get_latest_version self in
  ret (replace "[[VER]]" (format latest_version)
         (replace "[[EDITION]]" (edition self) (file_path self))).

(** *** [pathlib], POSIX flavour

    A [Path] is represented by a string it is built from; parsing is
    applied where the code operates on the path. *)

(** [str.split(sep)] for a one-character separator: the pieces between
    the separators, empty ones included. *)
Fixpoint split_sep_from (sep : ascii) (cur s : string) : list string :=
  match s with
  | EmptyString => [cur]
  | String c s' =>
      if Ascii.eqb c sep then cur :: split_sep_from sep "" s'
      else split_sep_from sep (cur +:+ String c "") s'
  end.

Definition split_sep (sep : ascii) (s : string) : list string :=
  split_sep_from sep "" s.

(** The root of a path: ["/"], ["//"] for exactly two leading slashes,
    or none. *)
Definition path_root (s : string) : string :=
  match s with
  | String "/" (String "/" (String "/" _)) => "/"
  | String "/" (String "/" _) => "//"
  | String "/" _ => "/"
  | _ => ""
  end.

(** The components of a path: empty pieces and ["."] are dropped. *)
Definition path_parts (s : string) : list string :=
  List.filter (fun x => negb (String.eqb x "") && negb (String.eqb x "."))
    (split_sep "/" s).

Record PurePath : Type := mk_PurePath {
  root : string;
  parts : list string
}.

(** [Path(s)] *)
Definition Path (s : string) : PurePath :=
  mk_PurePath (path_root s) (path_parts s).

(** [str(path)] *)
Definition Path_str (p : PurePath) : string :=
  match root p, parts p with
  | EmptyString, [] => "."
  | r, ps => r +:+ String.concat "/" ps
  end.

Definition ends_with_slash (s : string) : bool :=
  match String.get (String.length s - 1) s with
  | Some c => Ascii.eqb c "/"
  | None => false
  end.

(** [posixpath.join(a, b)], by which [a / b] combines its operands before
    parsing: an absolute [b] replaces [a]. *)
Definition posixpath_join (a b : string) : string :=
  if String.prefix "/" b then b
  else if String.eqb a "" || ends_with_slash a then a +:+ b
  else a +:+ "/" +:+ b.

(** [str(folder_path / name)] *)
Definition path_join (folder name : string) : string :=
  Path_str (Path (posixpath_join folder name)).

(** [repr] of a list of strings that need no escaping. *)
Definition repr_list (l : list string) : string :=
  "[" +:+ String.concat ", " (map (fun e => "'" +:+ e +:+ "'") l) +:+ "]".

(** [x in l] on a list of strings. *)
Definition py_in (x : string) (l : list string) : bool :=
  existsb (String.eqb x) l.

Section Resolver.

(** The network: the response to a GET of a URL, or the transport error
    it raises. *)
Variable http : string -> result Response.

(** [BeautifulSoup(content, features="html.parser")]. *)
Variable html_parser : string -> BeautifulSoup.

(** The SHA-256 hex digest of the local file at a path. *)
Variable sha256_of_file : string -> string.

Definition log_request (url : string) (s : state) : state :=
  mk_state (cache_latest_version s) (cache_download_link s)
           (cached_body_runs s) (url :: requests_log s) (next_id s).

(** [requests.get(url)] *)
Definition requests_get (url : string) : M Response :=
  fun s => (http url, log_request url s).

(** Modelled from the spec: [modules.utils.sha256_hash_check] is not
    among the sources; it compares the published hash with the locally
    computed hash of the file and is true only on exact equality. *)
Definition sha256_hash_check (file hash : string) : bool :=
  String.eqb (sha256_of_file file) hash.

(** Object creation: the new object receives the next identity. *)
Definition allocate : M nat :=
  fun s => (Ok (next_id s),
            mk_state (cache_latest_version s) (cache_download_link s)
                     (cached_body_runs s) (requests_log s)
                     (S (next_id s))).

Definition __init__ (folder_path edition : string) : M CachyOS :=
  let* self := allocate in
  let valid_editions := ["desktop"; "handheld"] in
  let edition := lower edition in
  let file_path := path_join folder_path FILE_NAME in
  let* _ := GenericUpdater_init file_path in
  if negb (py_in edition valid_editions)
  then throw ValueError
         ("Invalid edition: " +:+ edition +:+ ". Valid editions are: "
          +:+ repr_list valid_editions)
  else
    let* download_page :=
      requests_get (DOWNLOAD_PAGE_URL +:+ "/" +:+ edition) in
    if negb (status_code download_page =? 200)
    then throw ConnectionError
           ("Failed to fetch the download page from '"
            +:+ DOWNLOAD_PAGE_URL +:+ "/" +:+ edition +:+ "'")
    else ret (mk_CachyOS self valid_editions edition file_path
                download_page (html_parser (content download_page))).

Definition check_integrity (self : CachyOS) : M bool :=
  let* link := _get_download_link self in
  let sha256_url := link +:+ ".sha256" in
  let* response := requests_get sha256_url in
  let sha256_sums := text response in
  let* latest_version := _get_latest_version self in
  let* sha256_sum :=
    lift (_parse_sha256_hash self sha256_sums
            ("cachyos-" +:+ edition self +:+ "-linux-"
             +:+ format latest_version +:+ ".iso")) in
  let* path := _get_complete_normalized_file_path self true in
  ret (sha256_hash_check path sha256_sum).

(** A method call on an instance, or the creation of an instance. *)
Inductive call : Type :=
| Call_get_latest_version (self : CachyOS)
| Call_get_download_link (self : CachyOS)
| Call_check_integrity (self : CachyOS)
| Call_init (folder_path edition : string).

(** The state a call leaves behind, whether it returns or raises. *)
Definition run_call (c : call) (s : state) : state :=
  match c with
  | Call_get_latest_version self => snd (_get_latest_version self s)
  | Call_get_download_link self => snd (_get_download_link self s)
  | Call_check_integrity self => snd (check_integrity self s)
  | Call_init folder_path edition => snd (__init__ folder_path edition s)
  end.

Definition run_calls (cs : list call) (s : state) : state :=
  fold_left (fun s c => run_call c s) cs s.

End Resolver.

(** ** Specification-level notions *)

(** Ordinary lexical ordering of strings by code point. *)
Inductive lex_lt : string -> string -> Prop :=
| lex_lt_empty c s : lex_lt EmptyString (String c s)
| lex_lt_head c1 c2 s1 s2 :
    (code c1 < code c2)%N -> lex_lt (String c1 s1) (String c2 s2)
| lex_lt_tail c s1 s2 :
    lex_lt s1 s2 -> lex_lt (String c s1) (String c s2).

Definition lex_le (s t : string) : Prop := s = t \/ lex_lt s t.

(** A decimal digit, as a character. *)
Definition digit (c : ascii) : Prop :=
  In c ["0"; "1"; "2"; "3"; "4"; "5"; "6"; "7"; "8"; "9"]%char.

(** "Six digits followed by a slash", at the start of [h]. *)
Definition version_href (h : string) : Prop :=
  exists d1 d2 d3 d4 d5 d6 rest,
    h = String d1 (String d2 (String d3 (String d4 (String d5 (String d6
          (String "/" rest))))))
    /\ Forall digit [d1; d2; d3; d4; d5; d6].


Definition links_of (self : CachyOS) : list Tag :=
  select (soup_download_page self) "table#list tbody tr td.link a".

(** A well-formed version link: its [href] matches the version pattern and
    it carries a [title]. *)
Definition well_formed (l : Tag) : Prop :=
  (exists h, Tag_get l "href" = PyStr h /\ version_href h)
  /\ exists t, Tag_get l "title" = PyStr t.

(** A link that carries an [href] which does not match the pattern. *)
Definition other_href (l : Tag) : Prop :=
  exists h, Tag_get l "href" = PyStr h /\ ~ version_href h.

(** [m] is the title of a well-formed link of [links] and no well-formed
    link of [links] has a lexically greater title. *)
Definition max_title (links : list Tag) (m : string) : Prop :=
  (exists l, In l links /\ well_formed l /\ Tag_get l "title" = PyStr m)
  /\ forall l t, In l links -> well_formed l ->
                 Tag_get l "title" = PyStr t -> lex_le t m.

(** A manifest line that is not "two tokens, the second being the file
    name". *)
Definition no_entry (filename line : string) : Prop :=
  forall h, split line <> [h; filename].

(** The download link of [self] for the version [v], written out. *)
Definition download_link_of (self : CachyOS) (v : obj) : string :=
  "https://cdn.cachyos.org/ISO/" +:+ edition self +:+ "/" +:+ format v
  +:+ "/cachyos-" +:+ edition self +:+ "-linux-" +:+ format v +:+ ".iso".

(** The two cache entries of [self], where present, hold what the cached
    bodies compute. *)
Definition consistent (self : CachyOS) (s : state) : Prop :=
  (forall v, cache_latest_version s !! self_id self = Some v ->
             _get_latest_version_body self = Ok v)
  /\ (forall u, cache_download_link s !! self_id self = Some u ->
                exists v, _get_latest_version_body self = Ok v
                          /\ u = download_link_of self v).

(** ** Sample data *)

(** A page whose version table holds exactly [links]. *)
Definition listing (links : list Tag) : BeautifulSoup :=
  fun selector =>
    if String.eqb selector "table#list tbody tr td.link a" then links
    else [].

(** A desktop resolver over a given page. *)
Definition resolver_on (id : nat) (links : list Tag) : CachyOS :=
  mk_CachyOS id ["desktop"; "handheld"] "desktop"
    "/isos/cachyos-[[EDITION]]-linux-[[VER]].iso"
    (mk_Response 200 "" "") (listing links).

Definition link (href title : string) : Tag :=
  mk_Tag (<["href" := href]> (<["title" := title]> ∅)).

Definition link_without_href (title : string) : Tag :=
  mk_Tag (<["title" := title]> ∅).

Definition link_without_title (href : string) : Tag :=
  mk_Tag (<["href" := href]> ∅).

Definition LF : string := String "010" "".

(** The listing of the end-to-end scenario of the specification. *)
Definition scenario_links : list Tag :=
  [link "240101/" "v1"; link "240601/" "v2"; link "notaversion/" "bad"].

(** [m] keeps [P], whether it returns or raises. *)
Definition preserves {A} (P : state -> Prop) (m : M A) : Prop :=
  forall s, P s -> P (snd (m s)).

(** A network that answers every GET with the same status and body. *)
Definition constant_network (status : nat) (body : string)
  : string -> result Response :=
  fun _ => Ok (mk_Response status body body).

(** A parser that finds the links of the scenario in every page. *)
Definition scenario_parser : string -> BeautifulSoup :=
  fun _ => listing scenario_links.

Definition scenario_manifest : string :=
  "abc123  cachyos-desktop-linux-v2.iso" +:+ LF.

(** Every method call of [c] is made on an instance that [allowed]
    admits. *)
Definition call_on (allowed : CachyOS -> Prop) (c : call) : Prop :=
  match c with
  | Call_get_latest_version other
  | Call_get_download_link other
  | Call_check_integrity other => allowed other
  | Call_init _ _ => True
  end.

(** [other] is [self] or has another identity. *)
Definition distinct_from (self other : CachyOS) : Prop :=
  self_id other = self_id self -> other = self.

(** Every cache entry belongs to an identity that has been given out. *)
Definition ids_allocated (s : state) : Prop :=
  forall i, is_Some (cache_latest_version s !! i)
            \/ is_Some (cache_download_link s !! i) ->
            i < next_id s.

(** The resolver of the scenario. *)
Definition scenario_resolver : CachyOS := resolver_on 0 scenario_links.

(** The network [http] with the status of every response replaced. *)
Definition with_status (status : nat) (http : string -> result Response)
  : string -> result Response :=
  fun url =>
    match http url with
    | Ok r => Ok (mk_Response status (content r) (text r))
    | Raise e => Raise e
    end.

(** ** Notions used by the further properties *)

(** Every character of [s] satisfies [p]. *)
Fixpoint all_chars (p : ascii -> bool) (s : string) : bool :=
  match s with
  | EmptyString => true
  | String c s' => p c && all_chars p s'
  end.

Definition no_space (s : string) : Prop :=
  all_chars (fun c => negb (py_isspace c)) s = true.

Definition only_space (s : string) : Prop :=
  all_chars py_isspace s = true.

Definition no_linebreak (s : string) : Prop :=
  all_chars (fun c => negb (py_islinebreak c)) s = true.

(** A non-empty string without white space. *)
Definition token (s : string) : Prop := s <> "" /\ no_space s.

Definition CR : string := String "013" "".
Definition CRLF : string := String "013" (String "010" "").

(** The usual line terminators. *)
Definition line_terminator (sep : string) : Prop :=
  sep = LF \/ sep = CRLF \/ sep = CR.

(** The text made of [lines], each followed by [sep]. *)
Definition manifest_of (sep : string) (lines : list string) : string :=
  fold_right (fun line rest => line +:+ sep +:+ rest) "" lines.

(** A link whose [href] is present and matches the version pattern. *)
Definition has_version_href (l : Tag) : Prop :=
  exists h, Tag_get l "href" = PyStr h /\ version_href h.

(** The condition of the comprehension, on a link that carries an
    [href]. *)
Definition accepts (l : Tag) : bool :=
  match Tag_get l "href" with
  | PyStr h => bool_decide (is_Some (match_at version_pattern h))
  | PyNone => false
  end.

(** The links the comprehension keeps. *)
Definition matching_links (links : list Tag) : list Tag :=
  List.filter accepts links.

(** The number a string of decimal digits denotes. *)
Fixpoint decimal_from (acc : N) (s : string) : N :=
  match s with
  | EmptyString => acc
  | String c s' => decimal_from (10 * acc + (code c - 48)) s'
  end.

Definition decimal (s : string) : N := decimal_from 0 s.

(** A string of exactly [n] decimal digits. *)
Definition digits_of_width (n : nat) (s : string) : Prop :=
  String.length s = n /\ all_chars is_digit s = true.

(** The two messages of [VersionNotFoundError]. *)
Definition msg_not_parsed : string :=
  "We were not able to parse the download page".
Definition msg_no_version : string :=
  "No valid version numbers found in the download links".

(** Every method call of [cs], run from [s], is made on an instance whose
    identity has been given out by then. *)
Fixpoint calls_on_created
  (http : string -> result Response)
  (html_parser : string -> BeautifulSoup)
  (sha256_of_file : string -> string)
  (cs : list call) (s : state) : Prop :=
  match cs with
  | [] => True
  | c :: cs' =>
      call_on (fun other => self_id other < next_id s) c
      /\ calls_on_created http html_parser sha256_of_file cs'
           (run_call http html_parser sha256_of_file c s)
  end.


(** ** Proof automation for concrete [href]s *)

(** Closes [Forall digit [d1; ...]] on concrete characters. *)
Ltac solve_digits :=
  repeat (apply List.Forall_cons; [unfold digit; simpl; tauto|]);
  apply List.Forall_nil.

(** Closes [~ version_href h] for a concrete [h] whose first character is
    not a digit. *)
Ltac refute_version_href :=
  let E := fresh "E" in
  let Hd := fresh "Hd" in
  intros (? & ? & ? & ? & ? & ? & ? & E & Hd);
  injection E as <- <- <- <- <- <- _;
  apply Forall_cons in Hd as [Hd _]; unfold digit in Hd; simpl in Hd;
  repeat (destruct Hd as [Hd|Hd]; [discriminate Hd|]); exact Hd.

(** * Properties *)

(** ** Lexical order and the comparison of the interpreter *)

Section LexOrder.

Lemma compare_Lt_lex s t : String.compare s t = Lt <-> lex_lt s t.
Proof.
  revert t; induction s as [|a s IH]; intros [|b t]; simpl.
  - split; [discriminate | inversion 1].
  - split; [constructor | reflexivity].
  - split; [discriminate | inversion 1].
  - unfold Ascii.compare. fold (code a) (code b).
    destruct (N.compare_spec (code a) (code b)) as [E|E|E].
    + apply (f_equal ascii_of_N) in E. unfold code in E.
      rewrite !ascii_N_embedding in E. subst b.
      rewrite IH. split; [constructor; assumption|].
      inversion 1; subst; [lia | assumption].
    + split; [constructor; assumption | reflexivity].
    + split; [discriminate|].
      inversion 1; subst; lia.
Qed.

Lemma compare_Gt_lex s t : String.compare s t = Gt <-> lex_lt t s.
Proof.
  rewrite <- compare_Lt_lex, (String.compare_antisym t s).
  destruct (String.compare s t); simpl; split; congruence.
Qed.

Lemma compare_Eq_eq s t : String.compare s t = Eq <-> s = t.
Proof.
  split; [apply String.compare_eq_iff|].
  intros ->. destruct (String.compare t t) eqn:E; [reflexivity| |].
  - pose proof E as E'. rewrite String.compare_antisym in E'.
    rewrite E in E'. discriminate.
  - pose proof E as E'. rewrite String.compare_antisym in E'.
    rewrite E in E'. discriminate.
Qed.

Lemma lex_lt_irrefl s : ~ lex_lt s s.
Proof.
  intros H. apply compare_Lt_lex in H.
  rewrite (proj2 (compare_Eq_eq s s) eq_refl) in H. discriminate.
Qed.

Lemma lex_lt_trans s t u : lex_lt s t -> lex_lt t u -> lex_lt s u.
Proof.
  intros H; revert u; induction H; intros u Hu; inversion Hu; subst.
  - constructor.
  - constructor.
  - apply lex_lt_head; lia.
  - apply lex_lt_head; assumption.
  - apply lex_lt_head; assumption.
  - apply lex_lt_tail; auto.
Qed.

Lemma lex_le_refl s : lex_le s s.
Proof. left; reflexivity. Qed.

Lemma lex_le_trans s t u : lex_le s t -> lex_le t u -> lex_le s u.
Proof.
  intros [->|H1] [->|H2]; [left; reflexivity | right; assumption
                          | right; assumption |].
  right; eapply lex_lt_trans; eassumption.
Qed.

Lemma lex_le_antisym s t : lex_le s t -> lex_le t s -> s = t.
Proof.
  intros [->|H1] [E|H2]; try congruence.
  exfalso; eapply lex_lt_irrefl, lex_lt_trans; eassumption.
Qed.

Lemma not_Gt_lex_le s t : String.compare s t <> Gt -> lex_le s t.
Proof.
  destruct (String.compare s t) eqn:E; intros H.
  - left; apply compare_Eq_eq; assumption.
  - right; apply compare_Lt_lex; assumption.
  - congruence.
Qed.

End LexOrder.

(** ** The builtin [max] on strings *)

Section Max.

Lemma max_loop_strings (ts : list string) : forall m,
  exists m', max_loop (PyStr m) (map PyStr ts) = Ok (PyStr m')
             /\ In m' (m :: ts)
             /\ forall t, In t (m :: ts) -> lex_le t m'.
Proof.
  induction ts as [|t ts IH]; intros m; simpl.
  - exists m. split; [reflexivity|]. split; [left; reflexivity|].
    intros t [<-|[]]. apply lex_le_refl.
  - destruct (String.compare t m) eqn:E.
    + destruct (IH m) as (m' & Hm & Hin & Hle). exists m'.
      split; [assumption|]. split.
      * destruct Hin as [<-|Hin]; [left; reflexivity | right; right; assumption].
      * intros x [<-|[<-|Hx]].
        -- apply Hle; left; reflexivity.
        -- apply compare_Eq_eq in E. subst. apply Hle; left; reflexivity.
        -- apply Hle; right; assumption.
    + destruct (IH m) as (m' & Hm & Hin & Hle). exists m'.
      split; [assumption|]. split.
      * destruct Hin as [<-|Hin]; [left; reflexivity | right; right; assumption].
      * intros x [<-|[<-|Hx]].
        -- apply Hle; left; reflexivity.
        -- apply lex_le_trans with m; [|apply Hle; left; reflexivity].
           right; apply compare_Lt_lex; assumption.
        -- apply Hle; right; assumption.
    + destruct (IH t) as (m' & Hm & Hin & Hle). exists m'.
      split; [assumption|]. split.
      * destruct Hin as [<-|Hin]; [right; left; reflexivity | right; right; assumption].
      * intros x [<-|[<-|Hx]].
        -- apply lex_le_trans with t; [|apply Hle; left; reflexivity].
           right; apply compare_Gt_lex; assumption.
        -- apply Hle; left; reflexivity.
        -- apply Hle; right; assumption.
Qed.

Lemma max_strings (ts : list string) :
  ts <> [] ->
  exists m, Py.max (map PyStr ts) = Ok (PyStr m)
            /\ In m ts /\ forall t, In t ts -> lex_le t m.
Proof.
  destruct ts as [|t ts]; [congruence|]. intros _.
  apply max_loop_strings.
Qed.

(** [None] among the candidates of a list of at least two items makes
    the first comparison that meets it raise. *)
Lemma max_loop_none_rest (items : list obj) : forall m,
  In PyNone items ->
  max_loop m items = raise_rt TypeError.
Proof.
  induction items as [|x items IH]; intros m; [intros []|].
  intros [->|Hin]; simpl.
  - destruct m; reflexivity.
  - destruct x as [|x]; [destruct m; reflexivity|].
    destruct m as [|m]; [reflexivity|]. simpl. apply IH; assumption.
Qed.

End Max.

(** ** The version pattern *)

Section Pattern.

Lemma is_digit_digit c : is_digit c = true <-> digit c.
Proof.
  unfold digit.
  destruct c as [[] [] [] [] [] [] [] []]; vm_compute;
    split; first [ discriminate | intros _; tauto | idtac ];
    intros H; repeat (destruct H as [H|H]; [discriminate H|]);
    destruct H.
Qed.

Lemma match_at_version_pattern h :
  is_Some (match_at version_pattern h) <-> version_href h.
Proof.
  split.
  - intros [r Hr]. unfold version_pattern in Hr. simpl in Hr.
    repeat match type of Hr with
    | context [match ?s with EmptyString => _ | String _ _ => _ end] =>
        destruct s; [discriminate Hr|]
    | context [if is_digit ?c then _ else _] =>
        let E := fresh "E" in
        destruct (is_digit c) eqn:E; [apply is_digit_digit in E|discriminate Hr]
    end.
    destruct (Ascii.eqb_spec a5 "/"); [subst|discriminate Hr].
    exists a, a0, a1, a2, a3, a4, h. split; [reflexivity|].
    repeat (constructor; [assumption|]). constructor.
  - intros (d1 & d2 & d3 & d4 & d5 & d6 & rest & -> & Hd).
    repeat match goal with
    | H : Forall _ (_ :: _) |- _ =>
        let D := fresh "D" in
        apply Forall_cons in H; destruct H as [D H];
        apply is_digit_digit in D
    end.
    exists rest. simpl. rewrite D, D0, D1, D2, D3, D4. reflexivity.
Qed.

Lemma re_match_version_href h :
  re_match version_pattern (PyStr h) = Ok true <-> version_href h.
Proof.
  rewrite <- match_at_version_pattern. unfold re_match.
  split.
  - intros H. injection H as H. apply bool_decide_eq_true in H. exact H.
  - intros H. f_equal. apply bool_decide_eq_true. exact H.
Qed.

Lemma re_match_other_href h :
  ~ version_href h -> re_match version_pattern (PyStr h) = Ok false.
Proof.
  intros H. unfold re_match. f_equal. apply bool_decide_eq_false.
  rewrite match_at_version_pattern. exact H.
Qed.

End Pattern.

(** ** Version extraction *)

Section Extractor.

Lemma well_formed_not_other l : well_formed l -> other_href l -> False.
Proof.
  intros [(h & Hh & Hv) _] (h' & Hh' & Hn).
  rewrite Hh in Hh'. injection Hh' as <-. exact (Hn Hv).
Qed.

(** On links that all carry an [href], and a [title] where the [href]
    matches, the comprehension collects the titles of the well-formed
    links, in order. *)
Lemma version_numbers_of_titles (links : list Tag) :
  Forall (fun l => well_formed l \/ other_href l) links ->
  exists ts,
    version_numbers_of links = Ok (map PyStr ts)
    /\ forall t, In t ts <->
         exists l, In l links /\ well_formed l
                   /\ Tag_get l "title" = PyStr t.
Proof.
  induction 1 as [|l links Hl _ (ts & Hts & Hin)].
  - exists []. split; [reflexivity|]. intros t; split; [intros []|].
    intros (l & [] & _).
  - destruct Hl as [Hwf|Hoth].
    + pose proof Hwf as [(h & Hh & Hv) (t & Ht)].
      exists (t :: ts). split.
      * simpl. rewrite Hh, (proj2 (re_match_version_href h) Hv). simpl.
        rewrite Hts, Ht. reflexivity.
      * intros x; split.
        -- intros [<-|Hx].
           ++ exists l. split; [left; reflexivity|]. split; assumption.
           ++ apply Hin in Hx as (l' & Hl' & Hw' & Ht').
              exists l'. split; [right; assumption|]. split; assumption.
        -- intros (l' & [<-|Hl'] & Hw' & Ht').
           ++ left. congruence.
           ++ right. apply Hin. exists l'. auto.
    + pose proof Hoth as (h & Hh & Hn).
      exists ts. split.
      * simpl. rewrite Hh, (re_match_other_href h Hn). simpl. exact Hts.
      * intros x; split.
        -- intros Hx. apply Hin in Hx as (l' & Hl' & Hw' & Ht').
           exists l'. split; [right; assumption|]. split; assumption.
        -- intros (l' & [<-|Hl'] & Hw' & Ht').
           ++ destruct (well_formed_not_other _ Hw' Hoth).
           ++ apply Hin. exists l'. auto.
Qed.

(** A link without [href] makes the comprehension raise. *)
Lemma version_numbers_of_no_href (links : list Tag) l :
  In l links -> Tag_get l "href" = PyNone ->
  version_numbers_of links = raise_rt TypeError.
Proof.
  intros Hin Hl. induction links as [|x links IH]; [destruct Hin|].
  simpl. destruct (Tag_get x "href") as [|h] eqn:Hx; [reflexivity|].
  destruct Hin as [->|Hin]; [congruence|].
  simpl. rewrite (IH Hin). destruct (bool_decide _); reflexivity.
Qed.

Lemma body_unfold self x xs :
  links_of self = x :: xs ->
  _get_latest_version_body self =
    let! version_numbers := version_numbers_of (x :: xs) in
    match version_numbers with
    | [] => raise_msg VersionNotFoundError
              "No valid version numbers found in the download links"
    | _ :: _ => Py.max version_numbers
    end.
Proof.
  unfold _get_latest_version_body, links_of. intros ->. reflexivity.
Qed.

Lemma body_max_title self :
  Forall (fun l => well_formed l \/ other_href l) (links_of self) ->
  Exists well_formed (links_of self) ->
  exists m, _get_latest_version_body self = Ok (PyStr m)
            /\ max_title (links_of self) m.
Proof.
  intros Hall Hex.
  destruct (version_numbers_of_titles _ Hall) as (ts & Hts & Hin).
  apply List.Exists_exists in Hex as (l0 & Hl0 & Hw0).
  pose proof Hw0 as [_ (t0 & Ht0)].
  assert (Ht0in : In t0 ts) by (apply Hin; exists l0; auto).
  destruct (links_of self) as [|x xs] eqn:Hlinks; [destruct Hl0|].
  rewrite (body_unfold _ _ _ Hlinks), Hts. simpl.
  destruct ts as [|t ts]; [destruct Ht0in|].
  destruct (max_strings (t :: ts)) as (m & Hm & Hmin & Hmle);
    [discriminate|].
  exists m. split; [exact Hm|]. split.
  - apply Hin in Hmin as (l & Hl & Hw & Ht). exists l. auto.
  - intros l u Hl Hw Hu. apply Hmle, Hin. exists l. auto.
Qed.

Lemma max_title_unique links m m' :
  max_title links m -> max_title links m' -> m = m'.
Proof.
  intros [(l & Hl & Hw & Ht) Hle] [(l' & Hl' & Hw' & Ht') Hle'].
  apply lex_le_antisym; eauto.
Qed.

Lemma max_title_Permutation links links' m :
  Permutation links links' -> max_title links m -> max_title links' m.
Proof.
  intros HP [(l & Hl & Hw & Ht) Hle]. split.
  - exists l. split; [eapply Permutation_in; eassumption | auto].
  - intros l' t Hl'. apply Hle.
    eapply Permutation_in; [symmetry|]; eassumption.
Qed.

End Extractor.

(** ** Claims about the version extractor *)

Section ExtractorClaims.

Lemma digits_240101 : version_href "240101/".
Proof.
  exists "2"%char, "4"%char, "0"%char, "1"%char, "0"%char, "1"%char, "".
  split; [reflexivity|]. solve_digits.
Qed.

Lemma well_formed_link_240101 t : well_formed (link "240101/" t).
Proof.
  split; [exists "240101/"; split; [reflexivity | apply digits_240101]|].
  exists t; reflexivity.
Qed.

(** X1.  Where every link carries an [href], and a [title] when the
    [href] matches: on a listing made of well-formed version links (at least
    one) and of links whose [href] does not match the pattern, the
    extractor returns the lexical maximum of the titles of the well-formed
    links, and returns the same on every permutation of the listing. *)
Lemma latest_version_is_max_title (self : CachyOS) :
  Forall (fun l => well_formed l \/ other_href l) (links_of self) ->
  Exists well_formed (links_of self) ->
  exists m,
    _get_latest_version_body self = Ok (PyStr m)
    /\ max_title (links_of self) m
    /\ forall self',
         Permutation (links_of self) (links_of self') ->
         _get_latest_version_body self' = Ok (PyStr m).
Proof.
  intros Hall Hex.
  destruct (body_max_title self Hall Hex) as (m & Hm & Hmax).
  exists m. split; [exact Hm|]. split; [exact Hmax|].
  intros self' HP.
  assert (Hall' : Forall (fun l => well_formed l \/ other_href l)
                    (links_of self')).
  { apply List.Forall_forall. intros l Hl.
    rewrite List.Forall_forall in Hall. apply Hall.
    eapply Permutation_in; [symmetry|]; eassumption. }
  assert (Hex' : Exists well_formed (links_of self')).
  { apply List.Exists_exists in Hex as (l & Hl & Hw).
    apply List.Exists_exists. exists l. split; [|exact Hw].
    eapply Permutation_in; eassumption. }
  destruct (body_max_title self' Hall' Hex') as (m' & Hm' & Hmax').
  rewrite Hm'. do 2 f_equal.
  eapply max_title_unique; [exact Hmax'|].
  eapply max_title_Permutation; eassumption.
Qed.

Example latest_version_is_max_title_scenario :
  exists m,
    _get_latest_version_body (resolver_on 0 scenario_links) = Ok (PyStr m)
    /\ max_title scenario_links m
    /\ forall self',
         Permutation scenario_links (links_of self') ->
         _get_latest_version_body self' = Ok (PyStr m).
Proof.
  apply (latest_version_is_max_title (resolver_on 0 scenario_links)).
  - apply List.Forall_cons;
      [|apply List.Forall_cons;
         [|apply List.Forall_cons; [|apply List.Forall_nil]]].
    + left. apply well_formed_link_240101.
    + left. split; [|exists "v2"; reflexivity].
      exists "240601/". split; [reflexivity|].
      exists "2"%char, "4"%char, "0"%char, "6"%char, "0"%char, "1"%char, "".
      split; [reflexivity|].
      solve_digits.
    + right. exists "notaversion/". split; [reflexivity|].
      refute_version_href.
  - apply List.Exists_cons_hd, well_formed_link_240101.
Defined.

(** C1: the code behaves otherwise.  Next to one well-formed link, a
    malformed link that lacks its [href], or one whose matching [href]
    comes without a [title], is not passed over: the extractor raises
    [TypeError] and returns no maximum at all. *)
Theorem latest_version_fails_on_malformed_link :
  let self1 := resolver_on 0 [link "240101/" "v1"; link_without_href "x"] in
  let self2 :=
    resolver_on 0 [link "240101/" "v1"; link_without_title "240601/"] in
  (Exists well_formed (links_of self1)
   /\ _get_latest_version_body self1 = raise_rt TypeError
   /\ ~ (exists m, _get_latest_version_body self1 = Ok (PyStr m)
                   /\ max_title (links_of self1) m))
  /\ (Exists well_formed (links_of self2)
      /\ _get_latest_version_body self2 = raise_rt TypeError
      /\ ~ (exists m, _get_latest_version_body self2 = Ok (PyStr m)
                      /\ max_title (links_of self2) m)).
Proof.
  cbv zeta. split; (split; [|split]).
  - apply List.Exists_cons_hd, well_formed_link_240101.
  - reflexivity.
  - intros (m & Hm & _). vm_compute in Hm. discriminate Hm.
  - apply List.Exists_cons_hd, well_formed_link_240101.
  - reflexivity.
  - intros (m & Hm & _). vm_compute in Hm. discriminate Hm.
Qed.

(** C5, as stated, fails: on a listing without links the extractor does
    not raise an error of a kind other than [VersionNotFoundError]. *)
Lemma empty_listing_error_kind_counterexample :
  ~ exists e, _get_latest_version_body (resolver_on 0 []) = Raise e
              /\ exn_cls e <> VersionNotFoundError.
Proof.
  intros (e & He & Hcls). vm_compute in He. injection He as <-.
  apply Hcls. reflexivity.
Qed.

(** C5, as amended.  Both failure conditions raise
    [VersionNotFoundError] and differ by their message only: a listing
    without links reports that the page could not be parsed; a listing
    whose links all carry an [href], none of which matches the pattern,
    reports that no valid version was found.  Neither returns a
    version. *)
Theorem extractor_failures_same_kind_distinct_message (self : CachyOS) :
  (links_of self = [] ->
   _get_latest_version_body self =
     raise_msg VersionNotFoundError
       "We were not able to parse the download page")
  /\ (links_of self <> [] -> Forall other_href (links_of self) ->
      _get_latest_version_body self =
        raise_msg VersionNotFoundError
          "No valid version numbers found in the download links")
  /\ @raise_msg obj VersionNotFoundError
       "We were not able to parse the download page"
     <> raise_msg VersionNotFoundError
          "No valid version numbers found in the download links".
Proof.
  split; [|split].
  - unfold _get_latest_version_body, links_of. intros ->. reflexivity.
  - intros Hne Hall.
    destruct (links_of self) as [|x xs] eqn:Hlinks; [congruence|].
    rewrite (body_unfold _ _ _ Hlinks).
    assert (Hnone : version_numbers_of (x :: xs) = Ok []).
    { clear Hlinks Hne. induction Hall as [|l ls (h & Hh & Hn) _ IH].
      - reflexivity.
      - simpl. rewrite Hh, (re_match_other_href h Hn). simpl. exact IH. }
    rewrite Hnone. reflexivity.
  - discriminate.
Qed.

Lemma extractor_failures_witness :
  _get_latest_version_body (resolver_on 0 []) =
    raise_msg VersionNotFoundError
      "We were not able to parse the download page"
  /\ _get_latest_version_body (resolver_on 0 [link "notaversion/" "bad"]) =
       raise_msg VersionNotFoundError
         "No valid version numbers found in the download links".
Proof.
  split.
  - apply (extractor_failures_same_kind_distinct_message (resolver_on 0 [])).
    reflexivity.
  - apply (extractor_failures_same_kind_distinct_message
             (resolver_on 0 [link "notaversion/" "bad"])).
    + discriminate.
    + apply List.Forall_cons; [|apply List.Forall_nil].
      exists "notaversion/". split; [reflexivity|].
      refute_version_href.
Defined.

(** C7: the code behaves otherwise.  A link without [href] is not
    discarded: [re.match] receives [None] and the extractor raises
    [TypeError], whatever else the listing holds.  A matching link
    without [title] is not discarded either: alone it makes the
    extractor return [None], next to another candidate it makes [max]
    raise [TypeError]. *)
Theorem attribute_less_link_not_discarded :
  _get_latest_version_body
    (resolver_on 0 [link "240101/" "v1"; link_without_href "v2"])
    = raise_rt TypeError
  /\ _get_latest_version_body
       (resolver_on 0 [link_without_title "240101/"])
     = Ok PyNone
  /\ _get_latest_version_body
       (resolver_on 0 [link "240101/" "v1"; link_without_title "240601/"])
     = raise_rt TypeError.
Proof. repeat split; vm_compute; reflexivity. Qed.

(** The same for every listing: one link without [href] is enough. *)
Lemma link_without_href_raises (self : CachyOS) (l : Tag) :
  In l (links_of self) -> Tag_get l "href" = PyNone ->
  _get_latest_version_body self = raise_rt TypeError.
Proof.
  intros Hin Hl.
  destruct (links_of self) as [|x xs] eqn:Hlinks; [destruct Hin|].
  rewrite (body_unfold _ _ _ Hlinks),
    (version_numbers_of_no_href _ l Hin Hl).
  reflexivity.
Qed.



End ExtractorClaims.

(** ** The checksum matcher *)

Section ChecksumMatcher.

Lemma parse_lines_skip line rest filename :
  no_entry filename line ->
  parse_lines (line :: rest) filename = parse_lines rest filename.
Proof.
  intros Hno. simpl. unfold no_entry in Hno.
  destruct (split line) as [|a [|b [|c r]]]; simpl; try reflexivity.
  destruct (String.eqb_spec b filename) as [->|]; [|reflexivity].
  destruct (Hno a). reflexivity.
Qed.

Lemma no_entry_token_count line filename :
  List.length (split line) <> 2 -> no_entry filename line.
Proof. intros Hlen h E. rewrite E in Hlen. apply Hlen. reflexivity. Qed.

Lemma no_entry_other_name line h' name filename :
  split line = [h'; name] -> name <> filename -> no_entry filename line.
Proof. intros E Hne h E'. rewrite E in E'. congruence. Qed.

Lemma parse_lines_first_match pre line post h filename :
  Forall (no_entry filename) pre ->
  split line = [h; filename] ->
  parse_lines (pre ++ line :: post) filename = Ok h.
Proof.
  intros Hpre Hline. induction Hpre as [|l pre Hl _ IH].
  - simpl. rewrite Hline. simpl. rewrite String.eqb_refl. reflexivity.
  - rewrite <- app_comm_cons, parse_lines_skip; assumption.
Qed.

Lemma parse_lines_no_match lines filename :
  Forall (no_entry filename) lines ->
  parse_lines lines filename =
    raise_msg ValueError
      ("Hash not found for the specified file: " +:+ filename).
Proof.
  induction 1 as [|l lines Hl _ IH]; [reflexivity|].
  rewrite parse_lines_skip; assumption.
Qed.

(** C2.  The lookup returns the first token of the first line that
    splits on white space into exactly two tokens, the second being
    exactly the file name; every line before it, whatever its number of
    tokens, is passed over; when no line qualifies, a [ValueError] that
    names the file is raised. *)
Theorem parse_sha256_hash_first_exact_match
  (self : CachyOS) (hash_file_content filename : string) :
  (forall pre line post h,
      splitlines hash_file_content = pre ++ line :: post ->
      Forall (no_entry filename) pre ->
      split line = [h; filename] ->
      _parse_sha256_hash self hash_file_content filename = Ok h)
  /\ (Forall (no_entry filename) (splitlines hash_file_content) ->
      _parse_sha256_hash self hash_file_content filename =
        raise_msg ValueError
          ("Hash not found for the specified file: " +:+ filename)).
Proof.
  unfold _parse_sha256_hash. split.
  - intros pre line post h -> Hpre Hline.
    apply parse_lines_first_match; assumption.
  - apply parse_lines_no_match.
Qed.

(** A manifest with a blank line, a line of three tokens, the entry, a
    second entry of the same name, and an entry in another case. *)
Lemma parse_sha256_hash_witness :
  let manifest :=
    LF +:+ "abc123 file.iso extra" +:+ LF +:+ "abc123 file.iso" +:+ LF
    +:+ "fff999  file.iso" +:+ LF +:+ "xyz999 OTHER.iso" +:+ LF in
  _parse_sha256_hash (resolver_on 0 []) manifest "file.iso" = Ok "abc123"
  /\ _parse_sha256_hash (resolver_on 0 []) manifest "other.iso" =
       raise_msg ValueError
         "Hash not found for the specified file: other.iso".
Proof.
  cbv zeta. split.
  - apply (proj1 (parse_sha256_hash_first_exact_match _ _ _)
             [""; "abc123 file.iso extra"] "abc123 file.iso"
             ["fff999  file.iso"; "xyz999 OTHER.iso"] "abc123").
    + reflexivity.
    + repeat (apply List.Forall_cons; [intros h; vm_compute; discriminate|]).
      apply List.Forall_nil.
    + reflexivity.
  - apply (proj2 (parse_sha256_hash_first_exact_match _ _ _)).
    vm_compute splitlines.
    repeat (apply List.Forall_cons; [intros h; vm_compute; discriminate|]).
    apply List.Forall_nil.
Defined.

End ChecksumMatcher.

(** ** The cached methods *)

Section Cache.

Lemma get_latest_version_hit self s v :
  cache_latest_version s !! self_id self = Some v ->
  _get_latest_version self s = (Ok v, s).
Proof.
  intros H. unfold _get_latest_version, functools_cache. rewrite H.
  reflexivity.
Qed.

Lemma get_latest_version_miss self s :
  cache_latest_version s !! self_id self = None ->
  _get_latest_version self s =
    match _get_latest_version_body self with
    | Ok v => (Ok v, store_latest_version self v (count_body_run s))
    | Raise e => (Raise e, count_body_run s)
    end.
Proof.
  intros H.
  unfold _get_latest_version, functools_cache, _get_latest_version_run,
    entered, lift.
  rewrite H. destruct (_get_latest_version_body self); reflexivity.
Qed.

Lemma get_download_link_hit self s u :
  cache_download_link s !! self_id self = Some u ->
  _get_download_link self s = (Ok u, s).
Proof.
  intros H. unfold _get_download_link, functools_cache. rewrite H.
  reflexivity.
Qed.

Lemma get_download_link_miss self s :
  cache_download_link s !! self_id self = None ->
  _get_download_link self s =
    match _get_latest_version self (count_body_run s) with
    | (Ok v, s') =>
        (Ok (download_link_of self v),
         store_download_link self (download_link_of self v) s')
    | (Raise e, s') => (Raise e, s')
    end.
Proof.
  intros H.
  unfold _get_download_link, functools_cache, _get_download_link_body,
    entered,
    bind, ret.
  rewrite H.
  destruct (_get_latest_version self (count_body_run s)) as [[v|e] s'];
    reflexivity.
Qed.

(** A successful call leaves its value in the cache. *)
Lemma get_latest_version_cached self s v s' :
  _get_latest_version self s = (Ok v, s') ->
  cache_latest_version s' !! self_id self = Some v.
Proof.
  destruct (cache_latest_version s !! self_id self) as [w|] eqn:E.
  - rewrite (get_latest_version_hit _ _ _ E). congruence.
  - rewrite (get_latest_version_miss _ _ E).
    destruct (_get_latest_version_body self); [|discriminate].
    intros [= <- <-]. simpl. apply lookup_insert_eq.
Qed.

Lemma get_latest_version_link_cache self s :
  cache_download_link (snd (_get_latest_version self s))
  = cache_download_link s.
Proof.
  destruct (cache_latest_version s !! self_id self) as [w|] eqn:E.
  - rewrite (get_latest_version_hit _ _ _ E). reflexivity.
  - rewrite (get_latest_version_miss _ _ E).
    destruct (_get_latest_version_body self); reflexivity.
Qed.


(** Consistent caches answer with what the body computes. *)
Lemma get_latest_version_consistent self s v :
  consistent self s -> _get_latest_version_body self = Ok v ->
  exists s', _get_latest_version self s = (Ok v, s')
             /\ consistent self s'
             /\ requests_log s' = requests_log s.
Proof.
  intros Hc Hbody.
  destruct (cache_latest_version s !! self_id self) as [w|] eqn:E;
    pose proof Hc as [Hv Hu].
  - exists s. rewrite (get_latest_version_hit _ _ _ E).
    apply Hv in E. rewrite Hbody in E. injection E as <-.
    split; [reflexivity|]. split; [exact Hc | reflexivity].
  - eexists. rewrite (get_latest_version_miss _ _ E), Hbody.
    split; [reflexivity|]. split; [|reflexivity].
    split; simpl.
    + intros w. rewrite lookup_insert_eq. congruence.
    + exact Hu.
Qed.

Lemma get_download_link_consistent self s v :
  consistent self s -> _get_latest_version_body self = Ok v ->
  exists s', _get_download_link self s = (Ok (download_link_of self v), s')
             /\ consistent self s'
             /\ requests_log s' = requests_log s.
Proof.
  intros Hc Hbody.
  destruct (cache_download_link s !! self_id self) as [w|] eqn:E.
  - exists s. rewrite (get_download_link_hit _ _ _ E).
    destruct Hc as [Hv Hu]. destruct (Hu _ E) as (v' & Hv' & ->).
    rewrite Hbody in Hv'. injection Hv' as <-.
    split; [reflexivity|]. split; [split; assumption | reflexivity].
  - rewrite (get_download_link_miss _ _ E).
    assert (Hc' : consistent self (count_body_run s)) by exact Hc.
    destruct (get_latest_version_consistent _ _ _ Hc' Hbody)
      as (s1 & -> & [Hv1 Hu1] & Hlog).
    eexists. split; [reflexivity|]. split; [|exact Hlog].
    split; simpl.
    + exact Hv1.
    + intros u. rewrite lookup_insert_eq. intros [= <-]. eauto.
Qed.

End Cache.

(** ** What every call keeps *)

Section Preservation.

Variable http : string -> result Response.
Variable html_parser : string -> BeautifulSoup.
Variable sha256_of_file : string -> string.

(** The instances calls may be made on, and the property they keep. *)
Variable allowed : CachyOS -> Prop.
Variable P : state -> Prop.

Hypothesis P_count : forall s, P s -> P (count_body_run s).
Hypothesis P_log : forall url s, P s -> P (log_request url s).
Hypothesis P_allocate : forall s, P s -> P (snd (allocate s)).
Hypothesis P_store_version : forall other v s,
  allowed other ->
  _get_latest_version_body other = Ok v ->
  cache_latest_version s !! self_id other = None ->
  P s -> P (store_latest_version other v s).
Hypothesis P_store_link : forall other v s,
  allowed other ->
  cache_latest_version s !! self_id other = Some v ->
  cache_download_link s !! self_id other = None ->
  P s -> P (store_download_link other (download_link_of other v) s).

Lemma preserves_ret {A} (a : A) : preserves P (ret a).
Proof. intros s Hs. exact Hs. Qed.

Lemma preserves_throw {A} c m : preserves P (@throw A c m).
Proof. intros s Hs. exact Hs. Qed.

Lemma preserves_lift {A} (r : result A) : preserves P (lift r).
Proof. intros s Hs. exact Hs. Qed.

Lemma preserves_bind {A B} (m : M A) (k : A -> M B) :
  preserves P m -> (forall a, preserves P (k a)) ->
  preserves P (bind m k).
Proof.
  intros Hm Hk s Hs. unfold bind. specialize (Hm s Hs).
  destruct (m s) as [[a|e] s']; simpl in *; [apply Hk|]; assumption.
Qed.

Lemma preserves_requests_get url : preserves P (requests_get http url).
Proof. intros s Hs. apply P_log, Hs. Qed.

Lemma preserves_get_latest_version other :
  allowed other -> preserves P (_get_latest_version other).
Proof.
  intros Hother s Hs.
  destruct (cache_latest_version s !! self_id other) as [w|] eqn:E.
  - rewrite (get_latest_version_hit _ _ _ E). exact Hs.
  - rewrite (get_latest_version_miss _ _ E).
    destruct (_get_latest_version_body other) as [v|e] eqn:Hbody; simpl.
    + apply P_store_version;
        [exact Hother | exact Hbody | exact E | apply P_count, Hs].
    + apply P_count, Hs.
Qed.

Lemma preserves_get_download_link other :
  allowed other -> preserves P (_get_download_link other).
Proof.
  intros Hother s Hs.
  destruct (cache_download_link s !! self_id other) as [w|] eqn:E.
  - rewrite (get_download_link_hit _ _ _ E). exact Hs.
  - rewrite (get_download_link_miss _ _ E).
    pose proof (preserves_get_latest_version other Hother _
                  (P_count _ Hs)) as H1.
    pose proof (get_latest_version_link_cache other (count_body_run s))
      as H2.
    destruct (_get_latest_version other (count_body_run s))
      as [[v|e] s1] eqn:Hv; simpl in *; [|exact H1].
    apply P_store_link; [exact Hother | | | exact H1].
    + eapply get_latest_version_cached, Hv.
    + rewrite H2. exact E.
Qed.

Lemma preserves_check_integrity other :
  allowed other ->
  preserves P (check_integrity http sha256_of_file other).
Proof.
  intros Hother.
  unfold check_integrity, _get_complete_normalized_file_path.
  repeat first
    [ apply preserves_bind; [|intros ?]
    | apply preserves_get_download_link, Hother
    | apply preserves_get_latest_version, Hother
    | apply preserves_requests_get
    | apply preserves_lift
    | apply preserves_ret ].
Qed.

Lemma preserves_init folder_path edition :
  preserves P (__init__ http html_parser folder_path edition).
Proof.
  unfold __init__, GenericUpdater_init.
  apply preserves_bind; [exact P_allocate | intros id].
  apply preserves_bind; [apply preserves_ret | intros _].
  destruct (negb _); [apply preserves_throw|].
  apply preserves_bind; [apply preserves_requests_get | intros page].
  destruct (negb _); [apply preserves_throw | apply preserves_ret].
Qed.

Lemma preserves_run_call c s :
  call_on allowed c ->
  P s -> P (run_call http html_parser sha256_of_file c s).
Proof.
  destruct c; simpl; intros Hc.
  - apply preserves_get_latest_version, Hc.
  - apply preserves_get_download_link, Hc.
  - apply preserves_check_integrity, Hc.
  - apply preserves_init.
Qed.

Lemma preserves_run_calls cs : forall s,
  Forall (call_on allowed) cs ->
  P s -> P (run_calls http html_parser sha256_of_file cs s).
Proof.
  induction cs as [|c cs IH]; intros s Hcs Hs; [exact Hs|].
  apply Forall_cons in Hcs as [Hc Hcs].
  apply IH; [exact Hcs | apply preserves_run_call; assumption].
Qed.

End Preservation.

(** ** Claims about the resolver *)

Section ResolverClaims.

Variable http : string -> result Response.
Variable html_parser : string -> BeautifulSoup.
Variable sha256_of_file : string -> string.

Lemma consistent_log_request self url s :
  consistent self s -> consistent self (log_request url s).
Proof. intros H. exact H. Qed.

Lemma consistent_initial_state self : consistent self initial_state.
Proof.
  split; simpl; intros x; rewrite lookup_empty; discriminate.
Qed.

Lemma py_in_In x l : py_in x l = true <-> In x l.
Proof.
  unfold py_in. rewrite existsb_exists. split.
  - intros (y & Hy & E). apply String.eqb_eq in E. subst. exact Hy.
  - intros H. exists x. split; [exact H | apply String.eqb_refl].
Qed.

(** C3.  Once the version resolves and the manifest is fetched, the
    integrity check returns a boolean that is true exactly when the hash
    of the local file equals the hash the matcher finds for the file
    name of the resolved version (so a mismatch returns false and does
    not raise), and an error of the matcher is raised unchanged. *)
Theorem check_integrity_true_iff_hash_equal
  (self : CachyOS) (s : state) (v : obj) (response : Response) :
  consistent self s ->
  _get_latest_version_body self = Ok v ->
  http (download_link_of self v +:+ ".sha256") = Ok response ->
  let filename :=
    "cachyos-" +:+ edition self +:+ "-linux-" +:+ format v +:+ ".iso" in
  let path :=
    replace "[[VER]]" (format v)
      (replace "[[EDITION]]" (edition self) (file_path self)) in
  (forall h,
      _parse_sha256_hash self (text response) filename = Ok h ->
      exists b s',
        check_integrity http sha256_of_file self s = (Ok b, s')
        /\ (b = true <-> sha256_of_file path = h))
  /\ (forall e,
      _parse_sha256_hash self (text response) filename = Raise e ->
      exists s',
        check_integrity http sha256_of_file self s = (Raise e, s')).
Proof.
  intros Hc Hbody Hhttp filename path.
  destruct (get_download_link_consistent _ _ _ Hc Hbody)
    as (s1 & Hlink & Hc1 & _).
  pose proof (consistent_log_request self
                (download_link_of self v +:+ ".sha256") s1 Hc1) as Hc2.
  destruct (get_latest_version_consistent _ _ _ Hc2 Hbody)
    as (s2 & Hver & Hc3 & _).
  destruct (get_latest_version_consistent _ _ _ Hc3 Hbody)
    as (s3 & Hver' & _ & _).
  split.
  - intros h Hparse. exists (sha256_hash_check sha256_of_file path h), s3.
    split.
    + unfold check_integrity, bind, requests_get, lift,
        _get_complete_normalized_file_path, ret.
      rewrite Hlink, Hhttp, Hver. fold filename. rewrite Hparse.
      unfold bind. rewrite Hver'. reflexivity.
    + unfold sha256_hash_check. apply String.eqb_eq.
  - intros e Hparse. exists s2.
    unfold check_integrity, bind, requests_get, lift.
    rewrite Hlink, Hhttp, Hver. fold filename. rewrite Hparse.
    reflexivity.
Qed.

(** C4.  Whatever the state of the caches, the download link of a
    resolver whose version resolves to [v] is the base, [/ISO/], the
    edition, the version and the file name
    [cachyos-{edition}-linux-{version}.iso]; two calls therefore return
    the same text. *)
Theorem download_link_format (self : CachyOS) (s1 s2 : state) (v : obj) :
  consistent self s1 -> consistent self s2 ->
  _get_latest_version_body self = Ok v ->
  fst (_get_download_link self s1) =
    Ok (DOMAIN +:+ "/ISO/" +:+ edition self +:+ "/" +:+ format v +:+ "/"
        +:+ ("cachyos-" +:+ edition self +:+ "-linux-" +:+ format v
             +:+ ".iso"))
  /\ fst (_get_download_link self s2) = fst (_get_download_link self s1).
Proof.
  intros H1 H2 Hbody.
  destruct (get_download_link_consistent _ _ _ H1 Hbody) as (s1' & -> & _).
  destruct (get_download_link_consistent _ _ _ H2 Hbody) as (s2' & -> & _).
  split; reflexivity.
Qed.

(** C8.  An edition whose lower-case form is not an allowed edition
    makes the constructor raise [ValueError] without any request having
    been issued; an edition whose lower-case form is allowed passes the
    test, and the first thing the constructor then does is request the
    listing of the lower-cased edition. *)
Theorem init_validates_edition_before_network
  (folder_path ed : string) (s : state) :
  (~ In (lower ed) ["desktop"; "handheld"] ->
   exists msg s',
     __init__ http html_parser folder_path ed s
       = (raise_msg ValueError msg, s')
     /\ requests_log s' = requests_log s)
  /\ (In (lower ed) ["desktop"; "handheld"] ->
      exists r s',
        __init__ http html_parser folder_path ed s = (r, s')
        /\ requests_log s' =
             (DOWNLOAD_PAGE_URL +:+ "/" +:+ lower ed)
               :: requests_log s
        /\ forall self, r = Ok self -> edition self = lower ed).
Proof.
  split; intros Hed.
  - assert (E : py_in (lower ed) ["desktop"; "handheld"] = false).
    { destruct (py_in _ _) eqn:E; [|reflexivity].
      apply py_in_In in E. contradiction. }
    eexists _, _.
    unfold __init__, bind, allocate, GenericUpdater_init, ret, throw.
    rewrite E. simpl. split; reflexivity.
  - apply py_in_In in Hed.
    unfold __init__, bind, allocate, GenericUpdater_init, ret, throw,
      requests_get.
    rewrite Hed. simpl negb. cbv iota.
    destruct (http _) as [page|e].
    + destruct (negb (status_code page =? 200)).
      * eexists _, _. split; [reflexivity|]. split; [reflexivity|].
        intros self [=].
      * eexists _, _. split; [reflexivity|]. split; [reflexivity|].
        intros self [= <-]. reflexivity.
    + eexists _, _. split; [reflexivity|]. split; [reflexivity|].
      intros self [=].
Qed.





(** X16.  Consistency is kept by every sequence of calls in which no
    other instance bears the identity of [self]: in every state reached
    from a consistent one, what is cached for [self] is what the cached
    bodies compute. *)
Lemma consistent_run_calls (self : CachyOS) (cs : list call) (s : state) :
  Forall (call_on (distinct_from self)) cs ->
  consistent self s ->
  consistent self (run_calls http html_parser sha256_of_file cs s).
Proof.
  intros Hcs Hs.
  apply (preserves_run_calls http html_parser sha256_of_file
           (distinct_from self) (consistent self));
    try assumption; try (intros; assumption).
  - intros other v s0 Hother Hbody Hnone [Hv Hu]. split; simpl.
    + intros w. destruct (decide (self_id other = self_id self)) as [E|E].
      * rewrite <- E, lookup_insert_eq. intros [= <-].
        rewrite <- (Hother E). exact Hbody.
      * rewrite lookup_insert_ne by exact E. apply Hv.
    + exact Hu.
  - intros other v s0 Hother Hver Hnone [Hv Hu]. split; simpl.
    + exact Hv.
    + intros u. destruct (decide (self_id other = self_id self)) as [E|E].
      * rewrite <- E, lookup_insert_eq. intros [= <-].
        rewrite (Hother E) in *. exists v. split; [apply Hv, Hver|].
        reflexivity.
      * rewrite lookup_insert_ne by exact E. apply Hu.
Qed.

(** A resolver that has just been constructed has a new identity and
    nothing in either cache. *)
Lemma init_fresh_cache (folder_path ed : string) (s s' : state)
  (new : CachyOS) :
  ids_allocated s ->
  __init__ http html_parser folder_path ed s = (Ok new, s') ->
  self_id new = next_id s
  /\ cache_latest_version s' !! self_id new = None
  /\ cache_download_link s' !! self_id new = None.
Proof.
  intros Hids.
  unfold __init__, bind, allocate, GenericUpdater_init, ret, throw,
    requests_get.
  destruct (negb (py_in _ _)); [discriminate|].
  destruct (http _) as [page|e]; [|discriminate].
  destruct (negb _); [discriminate|].
  intros [= <- <-]. simpl. split; [reflexivity|].
  split.
  - destruct (cache_latest_version s !! next_id s) eqn:E; [|reflexivity].
    assert (next_id s < next_id s); [|lia].
    apply Hids. left. rewrite E. eexists; reflexivity.
  - destruct (cache_download_link s !! next_id s) eqn:E; [|reflexivity].
    assert (next_id s < next_id s); [|lia].
    apply Hids. right. rewrite E. eexists; reflexivity.
Qed.

End ResolverClaims.

(** ** The claims at concrete inputs *)

Section Scenario.

Lemma scenario_version : _get_latest_version_body scenario_resolver = Ok (PyStr "v2").
Proof. reflexivity. Qed.

Lemma check_integrity_witness :
  (exists b s',
      check_integrity (constant_network 200 scenario_manifest)
        (fun _ => "abc123") scenario_resolver initial_state = (Ok b, s')
      /\ (b = true <-> "abc123" = "abc123"))
  /\ (exists b s',
      check_integrity (constant_network 200 scenario_manifest)
        (fun _ => "000000") scenario_resolver initial_state = (Ok b, s')
      /\ (b = true <-> "000000" = "abc123")).
Proof.
  split.
  - apply (proj1 (check_integrity_true_iff_hash_equal
                    (constant_network 200 scenario_manifest)
                    (fun _ => "abc123") scenario_resolver initial_state (PyStr "v2")
                    (mk_Response 200 scenario_manifest scenario_manifest)
                    (consistent_initial_state scenario_resolver) eq_refl eq_refl)
                 "abc123").
    reflexivity.
  - apply (proj1 (check_integrity_true_iff_hash_equal
                    (constant_network 200 scenario_manifest)
                    (fun _ => "000000") scenario_resolver initial_state (PyStr "v2")
                    (mk_Response 200 scenario_manifest scenario_manifest)
                    (consistent_initial_state scenario_resolver) eq_refl eq_refl)
                 "abc123").
    reflexivity.
Defined.

Lemma download_link_format_witness :
  fst (_get_download_link scenario_resolver initial_state) =
    Ok "https://cdn.cachyos.org/ISO/desktop/v2/cachyos-desktop-linux-v2.iso".
Proof.
  apply (download_link_format scenario_resolver initial_state initial_state (PyStr "v2")
           (consistent_initial_state scenario_resolver) (consistent_initial_state scenario_resolver)
           eq_refl).
Defined.

Lemma init_validates_edition_witness :
  (exists msg s',
      __init__ (constant_network 200 "") scenario_parser "/isos" "Server"
        initial_state = (raise_msg ValueError msg, s')
      /\ requests_log s' = [])
  /\ (exists r s',
      __init__ (constant_network 200 "") scenario_parser "/isos" "DeskTop"
        initial_state = (r, s')
      /\ requests_log s' = ["https://cdn.cachyos.org/ISO/desktop"]
      /\ forall new, r = Ok new -> edition new = "desktop").
Proof.
  split.
  - apply (proj1 (init_validates_edition_before_network
                    (constant_network 200 "") scenario_parser
                    "/isos" "Server" initial_state)).
    simpl. intros [H|[H|[]]]; discriminate H.
  - apply (proj2 (init_validates_edition_before_network
                    (constant_network 200 "") scenario_parser
                    "/isos" "DeskTop" initial_state)).
    simpl. left. reflexivity.
Defined.


(** C6: the code behaves otherwise.  The status of the manifest response
    is never read: replacing the status of every response changes neither
    the outcome nor the final state of the check, and a 404 answer is
    parsed as a manifest.  With the body of an error page the lookup fails
    with the matcher's [ValueError]; with a body that happens to hold an
    entry, the check even succeeds. *)
Theorem check_integrity_ignores_status :
  (forall status http sha256_of_file self s,
      check_integrity (with_status status http) sha256_of_file self s
      = check_integrity http sha256_of_file self s)
  /\ fst (check_integrity (constant_network 404 "404 Not Found")
            (fun _ => "abc123") scenario_resolver initial_state)
     = raise_msg ValueError
         "Hash not found for the specified file: cachyos-desktop-linux-v2.iso"
  /\ fst (check_integrity (constant_network 404 scenario_manifest)
            (fun _ => "abc123") scenario_resolver initial_state)
     = Ok true.
Proof.
  split; [|split; vm_compute; reflexivity].
  intros status http sha256_of_file self s.
  unfold check_integrity, bind, requests_get, with_status.
  destruct (_get_download_link self s) as [[link|e] s1]; [|reflexivity].
  destruct (http (link +:+ ".sha256")) as [r|e]; reflexivity.
Qed.

End Scenario.

(** * Further properties *)

(** ** The extractor on arbitrary listings *)

Section ExtractorOutcomes.

Lemma accepts_has_version_href l : accepts l = true <-> has_version_href l.
Proof.
  unfold accepts, has_version_href. split.
  - destruct (Tag_get l "href") as [|h]; [discriminate|].
    intros H. apply bool_decide_eq_true in H. exists h.
    split; [reflexivity | apply match_at_version_pattern, H].
  - intros (h & -> & Hv). apply bool_decide_eq_true.
    apply match_at_version_pattern, Hv.
Qed.

Lemma matching_links_spec links l :
  In l (matching_links links) <-> In l links /\ has_version_href l.
Proof.
  unfold matching_links. rewrite List.filter_In, accepts_has_version_href.
  reflexivity.
Qed.

Lemma version_numbers_of_cons l links :
  version_numbers_of (l :: links) =
    match Tag_get l "href" with
    | PyNone => raise_rt TypeError
    | PyStr h =>
        if bool_decide (is_Some (match_at version_pattern h))
        then let! tl := version_numbers_of links in
             Ok (Tag_get l "title" :: tl)
        else version_numbers_of links
    end.
Proof.
  cbn [version_numbers_of]. destruct (Tag_get l "href"); reflexivity.
Qed.

(** With every [href] present, the comprehension is a filter and a map. *)
Lemma version_numbers_of_filter links :
  Forall (fun l => Tag_get l "href" <> PyNone) links ->
  version_numbers_of links
  = Ok (map (fun l => Tag_get l "title") (matching_links links)).
Proof.
  induction 1 as [|l links Hl _ IH]; [reflexivity|].
  rewrite version_numbers_of_cons. unfold matching_links.
  cbn [List.filter]. unfold accepts at 1.
  destruct (Tag_get l "href") as [|h]; [congruence|].
  rewrite IH. destruct (bool_decide _); reflexivity.
Qed.

Lemma version_numbers_of_sound links : forall vs,
  version_numbers_of links = Ok vs ->
  forall v, In v vs ->
    exists l, In l links /\ has_version_href l /\ Tag_get l "title" = v.
Proof.
  induction links as [|l links IH]; intros vs.
  - intros [= <-] v [].
  - rewrite version_numbers_of_cons.
    destruct (Tag_get l "href") as [|h] eqn:Hh; [discriminate|].
    destruct (bool_decide _) eqn:B.
    + destruct (version_numbers_of links) as [tl|e]; [|discriminate].
      cbn [rbind]. intros [= <-] v [<-|Hv].
      * exists l. split; [left; reflexivity|]. split; [|reflexivity].
        exists h. split; [exact Hh|].
        apply bool_decide_eq_true in B.
        apply match_at_version_pattern, B.
      * destruct (IH tl eq_refl v Hv) as (l' & Hl' & H').
        exists l'. split; [right; exact Hl' | exact H'].
    + intros Hvs v Hv. destruct (IH vs Hvs v Hv) as (l' & Hl' & H').
      exists l'. split; [right; exact Hl' | exact H'].
Qed.

Lemma version_numbers_of_raise links e :
  version_numbers_of links = Raise e -> e = mk_exn TypeError None.
Proof.
  induction links as [|l links IH]; [discriminate|].
  rewrite version_numbers_of_cons.
  destruct (Tag_get l "href") as [|h]; [intros [= <-]; reflexivity|].
  destruct (bool_decide _); [|exact IH].
  destruct (version_numbers_of links) as [tl|e']; cbn [rbind];
    [discriminate|].
  intros [= <-]. apply IH. reflexivity.
Qed.

Lemma max_loop_In items : forall m v,
  max_loop m items = Ok v -> v = m \/ In v items.
Proof.
  induction items as [|x items IH]; intros m v; simpl.
  - intros [= <-]. left; reflexivity.
  - destruct x as [|x], m as [|m]; simpl; try discriminate.
    destruct (String.compare x m); intros H; apply IH in H;
      destruct H as [->|H]; auto.
Qed.

Lemma max_loop_raise items : forall m e,
  max_loop m items = Raise e -> e = mk_exn TypeError None.
Proof.
  induction items as [|x items IH]; intros m e; simpl; [discriminate|].
  destruct x as [|x], m as [|m]; simpl; try (intros [= <-]; reflexivity).
  apply IH.
Qed.

Lemma strings_or_none (vs : list obj) :
  In PyNone vs \/ exists ts, vs = map PyStr ts.
Proof.
  induction vs as [|[|t] vs [IH|(ts & ->)]].
  - right. exists []. reflexivity.
  - left. left. reflexivity.
  - left. left. reflexivity.
  - left. right. exact IH.
  - right. exists (t :: ts). reflexivity.
Qed.

(** [max] raises [TypeError] exactly on two or more items one of which
    is [None]. *)
Lemma max_TypeError_iff (vs : list obj) :
  Py.max vs = raise_rt TypeError <-> 2 <= List.length vs /\ In PyNone vs.
Proof.
  destruct vs as [|x [|y r]].
  - simpl. split; [discriminate | intros [H _]; lia].
  - simpl. split; [discriminate | intros [H _]; lia].
  - split.
    + intros H. split; [simpl; lia|].
      destruct (strings_or_none (x :: y :: r)) as [Hn|(ts & Hts)];
        [exact Hn|].
      destruct ts as [|t ts]; [discriminate|]. injection Hts as -> Hts.
      change (max_loop (PyStr t) (y :: r) = raise_rt TypeError) in H.
      rewrite Hts in H.
      destruct (max_loop_strings ts t) as (m' & Hm' & _).
      rewrite Hm' in H. discriminate.
    + intros [_ [->|Hn]].
      * simpl. destruct y; reflexivity.
      * apply max_loop_none_rest, Hn.
Qed.

(** X2.  Whatever the listing, a value the extractor returns is the
    [title] entry of a link of the listing whose [href] matches the
    version pattern: a link that fails the pattern never provides the
    result. *)
Theorem extractor_result_from_matching_link (self : CachyOS) (v : obj) :
  _get_latest_version_body self = Ok v ->
  exists l, In l (links_of self) /\ has_version_href l
            /\ Tag_get l "title" = v.
Proof.
  intros H.
  destruct (links_of self) as [|x xs] eqn:Hlinks.
  - unfold _get_latest_version_body in H. fold (links_of self) in H.
    rewrite Hlinks in H. discriminate.
  - rewrite (body_unfold _ _ _ Hlinks) in H.
    destruct (version_numbers_of (x :: xs)) as [vs|e] eqn:Hvs;
      [|discriminate].
    simpl in H. destruct vs as [|v0 vs]; [discriminate|].
    apply max_loop_In in H.
    apply (version_numbers_of_sound _ _ Hvs).
    destruct H as [->|H]; [left; reflexivity | right; exact H].
Qed.

Lemma extractor_result_from_matching_link_witness :
  exists l, In l scenario_links /\ has_version_href l
            /\ Tag_get l "title" = PyStr "v2".
Proof.
  apply (extractor_result_from_matching_link scenario_resolver (PyStr "v2")).
  reflexivity.
Defined.

(** X3.  Whatever the listing, the extractor raises nothing but
    [VersionNotFoundError] with the first message (exactly when there is
    no link), [VersionNotFoundError] with the second message, or the
    [TypeError] of the interpreter; the [ValueError] of [max] on an empty
    list cannot occur. *)
Theorem extractor_raises_only (self : CachyOS) (e : exn) :
  _get_latest_version_body self = Raise e ->
  (links_of self = []
   /\ e = mk_exn VersionNotFoundError (Some msg_not_parsed))
  \/ (links_of self <> []
      /\ (e = mk_exn VersionNotFoundError (Some msg_no_version)
          \/ e = mk_exn TypeError None)).
Proof.
  intros H.
  destruct (links_of self) as [|x xs] eqn:Hlinks.
  - left. split; [reflexivity|].
    unfold _get_latest_version_body in H. fold (links_of self) in H.
    rewrite Hlinks in H. injection H as <-. reflexivity.
  - right. split; [discriminate|].
    rewrite (body_unfold _ _ _ Hlinks) in H.
    destruct (version_numbers_of (x :: xs)) as [vs|e'] eqn:Hvs.
    + simpl in H. destruct vs as [|v0 vs].
      * left. injection H as <-. reflexivity.
      * right. eapply max_loop_raise, H.
    + right. simpl in H. injection H as <-.
      eapply version_numbers_of_raise, Hvs.
Qed.

Lemma extractor_raises_only_witness :
  (links_of (resolver_on 0 []) = []
   /\ mk_exn VersionNotFoundError (Some msg_not_parsed)
      = mk_exn VersionNotFoundError (Some msg_not_parsed))
  \/ (links_of (resolver_on 0 []) <> []
      /\ (mk_exn VersionNotFoundError (Some msg_not_parsed)
          = mk_exn VersionNotFoundError (Some msg_no_version)
          \/ mk_exn VersionNotFoundError (Some msg_not_parsed)
             = mk_exn TypeError None)).
Proof.
  apply (extractor_raises_only (resolver_on 0 [])). reflexivity.
Defined.

(** X4.  On a listing whose links all carry an [href], the extractor
    raises [TypeError] exactly when at least two links match the pattern
    and one of the matching links has no [title]. *)
Theorem extractor_TypeError_iff (self : CachyOS) :
  Forall (fun l => Tag_get l "href" <> PyNone) (links_of self) ->
  (_get_latest_version_body self = raise_rt TypeError
   <-> 2 <= List.length (matching_links (links_of self))
       /\ exists l, In l (links_of self) /\ has_version_href l
                    /\ Tag_get l "title" = PyNone).
Proof.
  intros Hall.
  assert (Hin : In PyNone (map (fun l => Tag_get l "title")
                             (matching_links (links_of self)))
                <-> exists l, In l (links_of self) /\ has_version_href l
                              /\ Tag_get l "title" = PyNone).
  { rewrite List.in_map_iff. split.
    - intros (l & Ht & Hl). apply matching_links_spec in Hl as [Hl Hv].
      exists l. auto.
    - intros (l & Hl & Hv & Ht). exists l. split; [exact Ht|].
      apply matching_links_spec. auto. }
  rewrite <- Hin. clear Hin.
  destruct (links_of self) as [|x xs] eqn:Hlinks.
  - unfold _get_latest_version_body. fold (links_of self). rewrite Hlinks.
    simpl. split; [discriminate | intros [H _]; lia].
  - rewrite (body_unfold _ _ _ Hlinks), (version_numbers_of_filter _ Hall).
    cbn [rbind].
    rewrite <- (List.length_map (fun l => Tag_get l "title")).
    destruct (map _ (matching_links (x :: xs))) as [|v0 vs] eqn:Hvs.
    + simpl. split; [discriminate | intros [H _]; lia].
    + apply max_TypeError_iff.
Qed.

Lemma extractor_TypeError_iff_witness :
  _get_latest_version_body
    (resolver_on 0 [link "240101/" "v1"; link_without_title "240601/"])
  = raise_rt TypeError.
Proof.
  apply (extractor_TypeError_iff
           (resolver_on 0 [link "240101/" "v1"; link_without_title "240601/"])).
  - apply List.Forall_cons; [discriminate|].
    apply List.Forall_cons; [discriminate | apply List.Forall_nil].
  - split; [vm_compute; lia|].
    exists (link_without_title "240601/").
    split; [right; left; reflexivity|]. split; [|reflexivity].
    exists "240601/". split; [reflexivity|].
    exists "2"%char, "4"%char, "0"%char, "6"%char, "0"%char, "1"%char, "".
    split; [reflexivity | solve_digits].
Defined.

End ExtractorOutcomes.

(** ** Fixed-width numeric titles *)

Section NumericTitles.

Lemma is_digit_bounds c :
  is_digit c = true -> (48 <= code c <= 57)%N.
Proof.
  unfold is_digit, in_range. intros H.
  apply andb_true_iff in H as [H1 H2].
  apply N.leb_le in H1, H2. lia.
Qed.

Lemma decimal_from_shift s : forall acc,
  decimal_from acc s
  = (acc * 10 ^ N.of_nat (String.length s) + decimal_from 0 s)%N.
Proof.
  induction s as [|c s IH]; intros acc.
  - simpl. lia.
  - cbn [decimal_from String.length].
    rewrite (IH (10 * acc + (code c - 48))%N), (IH (10 * 0 + (code c - 48))%N).
    rewrite Nat2N.inj_succ, N.pow_succ_r'. lia.
Qed.

Lemma decimal_cons c s :
  decimal (String c s)
  = ((code c - 48) * 10 ^ N.of_nat (String.length s) + decimal s)%N.
Proof.
  unfold decimal. cbn [decimal_from]. rewrite decimal_from_shift.
  reflexivity.
Qed.

Lemma decimal_bound s :
  all_chars is_digit s = true ->
  (decimal s < 10 ^ N.of_nat (String.length s))%N.
Proof.
  induction s as [|c s IH]; intros H.
  - reflexivity.
  - cbn [all_chars] in H. apply andb_true_iff in H as [Hc Hs].
    rewrite decimal_cons. cbn [String.length].
    rewrite Nat2N.inj_succ, N.pow_succ_r'.
    specialize (IH Hs). apply is_digit_bounds in Hc.
    set (p := (10 ^ N.of_nat (String.length s))%N) in *.
    assert ((code c - 48) * p <= 9 * p)%N by (apply N.mul_le_mono_r; lia).
    lia.
Qed.

(** On digit strings of one width the lexical order is the numeric
    order. *)
Lemma lex_lt_decimal s t :
  lex_lt s t ->
  String.length s = String.length t ->
  all_chars is_digit s = true -> all_chars is_digit t = true ->
  (decimal s < decimal t)%N.
Proof.
  induction 1 as [c s|c1 c2 s1 s2 Hc|c s1 s2 _ IH]; intros Hlen Hs Ht.
  - discriminate Hlen.
  - cbn [String.length] in Hlen. injection Hlen as Hlen.
    cbn [all_chars] in Hs, Ht.
    apply andb_true_iff in Hs as [Hc1 Hs1].
    apply andb_true_iff in Ht as [Hc2 Hs2].
    rewrite !decimal_cons. rewrite <- Hlen.
    pose proof (decimal_bound s1 Hs1) as B1.
    apply is_digit_bounds in Hc1, Hc2.
    set (p := (10 ^ N.of_nat (String.length s1))%N) in *.
    assert ((code c1 - 48 + 1) * p <= (code c2 - 48) * p)%N
      by (apply N.mul_le_mono_r; lia).
    lia.
  - cbn [String.length] in Hlen. injection Hlen as Hlen.
    cbn [all_chars] in Hs, Ht.
    apply andb_true_iff in Hs as [_ Hs1].
    apply andb_true_iff in Ht as [_ Hs2].
    rewrite !decimal_cons, <- Hlen.
    specialize (IH Hlen Hs1 Hs2). lia.
Qed.

(** X5.  When the titles of the well-formed links are digit strings of
    one common width (date codes), the title the extractor returns
    denotes the greatest number among them. *)
Theorem latest_version_is_numeric_max (self : CachyOS) (n : nat) :
  Forall (fun l => well_formed l \/ other_href l) (links_of self) ->
  Exists well_formed (links_of self) ->
  (forall l t, In l (links_of self) -> well_formed l ->
               Tag_get l "title" = PyStr t -> digits_of_width n t) ->
  exists m,
    _get_latest_version_body self = Ok (PyStr m)
    /\ (exists l, In l (links_of self) /\ well_formed l
                  /\ Tag_get l "title" = PyStr m)
    /\ forall l t, In l (links_of self) -> well_formed l ->
                   Tag_get l "title" = PyStr t ->
                   (decimal t <= decimal m)%N.
Proof.
  intros Hall Hex Hwidth.
  destruct (body_max_title self Hall Hex)
    as (m & Hm & (lm & Hlm & Hwm & Htm) & Hle).
  exists m. split; [exact Hm|]. split; [exists lm; auto|].
  intros l t Hl Hw Ht.
  destruct (Hle l t Hl Hw Ht) as [->|Hlt]; [lia|].
  destruct (Hwidth l t Hl Hw Ht) as [Hlen Hd].
  destruct (Hwidth lm m Hlm Hwm Htm) as [Hlen' Hd'].
  apply N.lt_le_incl, lex_lt_decimal; [exact Hlt | congruence | | ];
    assumption.
Qed.

Lemma latest_version_is_numeric_max_witness :
  exists m,
    _get_latest_version_body
      (resolver_on 0 [link "240101/" "240101"; link "240601/" "240601";
                      link "../" "Parent"])
    = Ok (PyStr m)
    /\ (exists l,
          In l [link "240101/" "240101"; link "240601/" "240601";
                link "../" "Parent"]
          /\ well_formed l /\ Tag_get l "title" = PyStr m)
    /\ forall l t,
         In l [link "240101/" "240101"; link "240601/" "240601";
               link "../" "Parent"] ->
         well_formed l -> Tag_get l "title" = PyStr t ->
         (decimal t <= decimal m)%N.
Proof.
  apply (latest_version_is_numeric_max
           (resolver_on 0 [link "240101/" "240101"; link "240601/" "240601";
                           link "../" "Parent"]) 6).
  - apply List.Forall_cons;
      [|apply List.Forall_cons;
         [|apply List.Forall_cons; [|apply List.Forall_nil]]].
    + left. apply well_formed_link_240101.
    + left. split; [|exists "240601"; reflexivity].
      exists "240601/". split; [reflexivity|].
      exists "2"%char, "4"%char, "0"%char, "6"%char, "0"%char, "1"%char, "".
      split; [reflexivity | solve_digits].
    + right. exists "../". split; [reflexivity|].
      intros (? & ? & ? & ? & ? & ? & ? & E & _). discriminate E.
  - apply List.Exists_cons_hd, well_formed_link_240101.
  - intros l t [<-|[<-|[<-|[]]]] Hw Ht.
    + injection Ht as <-. split; reflexivity.
    + injection Ht as <-. split; reflexivity.
    + exfalso. destruct Hw as [(h & Hh & Hv) _].
      injection Hh as <-.
      destruct Hv as (? & ? & ? & ? & ? & ? & ? & E & _). discriminate E.
Defined.

End NumericTitles.

(** ** Tokens and lines of a manifest *)

Section ManifestText.

Lemma append_cons c s t : String c s +:+ t = String c (s +:+ t).
Proof. reflexivity. Qed.

Lemma append_empty_r s : s +:+ "" = s.
Proof.
  induction s as [|c s IH]; [reflexivity|].
  rewrite append_cons, IH. reflexivity.
Qed.

Lemma append_assoc s t u : (s +:+ t) +:+ u = s +:+ t +:+ u.
Proof.
  induction s as [|c s IH]; [reflexivity|].
  rewrite !append_cons, IH. reflexivity.
Qed.

Lemma all_chars_append p s t :
  all_chars p (s +:+ t) = all_chars p s && all_chars p t.
Proof.
  induction s as [|c s IH]; [reflexivity|].
  rewrite append_cons. simpl. rewrite IH, andb_assoc. reflexivity.
Qed.

Lemma linebreak_is_space c : py_islinebreak c = true -> py_isspace c = true.
Proof.
  destruct c as [[] [] [] [] [] [] [] []]; vm_compute;
    first [ reflexivity | discriminate ].
Qed.

Lemma no_space_no_linebreak s : no_space s -> no_linebreak s.
Proof.
  unfold no_space, no_linebreak. induction s as [|c s IH]; simpl;
    [reflexivity|].
  intros H. apply andb_true_iff in H as [Hc Hs]. rewrite (IH Hs), andb_true_r.
  destruct (py_islinebreak c) eqn:E; [|reflexivity].
  rewrite (linebreak_is_space c E) in Hc. discriminate.
Qed.

(** What [split] returns are tokens. *)
Lemma split_from_tokens s : forall cur,
  no_space cur -> Forall token (split_from cur s).
Proof.
  induction s as [|c s IH]; intros cur Hcur; simpl.
  - destruct (String.eqb_spec cur ""); [constructor|].
    constructor; [split; assumption | constructor].
  - destruct (py_isspace c) eqn:Hc.
    + destruct (String.eqb_spec cur ""); [apply IH; reflexivity|].
      constructor; [split; assumption | apply IH; reflexivity].
    + apply IH. unfold no_space. rewrite all_chars_append. simpl.
      rewrite Hcur, Hc. reflexivity.
Qed.

Lemma split_tokens line : Forall token (split line).
Proof. apply split_from_tokens. reflexivity. Qed.

Lemma split_from_token t : forall cur s,
  no_space t -> split_from cur (t +:+ s) = split_from (cur +:+ t) s.
Proof.
  induction t as [|c t IH]; intros cur s Ht.
  - rewrite append_empty_r. reflexivity.
  - unfold no_space in Ht. simpl in Ht.
    apply andb_true_iff in Ht as [Hc Ht]. apply negb_true_iff in Hc.
    rewrite append_cons. simpl. rewrite Hc, (IH _ _ Ht), append_assoc.
    reflexivity.
Qed.

Lemma split_from_space_empty w : forall s,
  only_space w -> split_from "" (w +:+ s) = split_from "" s.
Proof.
  induction w as [|c w IH]; intros s Hw; [reflexivity|].
  unfold only_space in Hw. simpl in Hw.
  apply andb_true_iff in Hw as [Hc Hw]. rewrite append_cons. simpl.
  rewrite Hc. apply IH, Hw.
Qed.

Lemma split_from_space_token w cur s :
  only_space w -> w <> "" -> cur <> "" ->
  split_from cur (w +:+ s) = cur :: split_from "" s.
Proof.
  intros Hw Hne Hcur. destruct w as [|c w]; [congruence|].
  unfold only_space in Hw. simpl in Hw.
  apply andb_true_iff in Hw as [Hc Hw]. rewrite append_cons. simpl.
  rewrite Hc.
  destruct (String.eqb_spec cur ""); [congruence|].
  rewrite (split_from_space_empty w s Hw). reflexivity.
Qed.

(** Two tokens with white space before, between and after. *)
Lemma split_two_tokens w1 h w2 f w3 :
  only_space w1 -> token h -> only_space w2 -> w2 <> "" -> token f ->
  only_space w3 ->
  split (w1 +:+ h +:+ w2 +:+ f +:+ w3) = [h; f].
Proof.
  intros H1 [Hh Hhs] H2 Hne [Hf Hfs] H3. unfold split.
  rewrite (split_from_space_empty w1 _ H1), (split_from_token h _ _ Hhs).
  change ("" +:+ h) with h.
  rewrite (split_from_space_token w2 h _ H2 Hne Hh),
    (split_from_token f _ _ Hfs).
  change ("" +:+ f) with f. f_equal.
  destruct w3 as [|c w3].
  - simpl. destruct (String.eqb_spec f ""); [congruence | reflexivity].
  - rewrite <- (append_empty_r (String c w3)).
    rewrite (split_from_space_token (String c w3) f "" H3); [|discriminate|exact Hf].
    reflexivity.
Qed.

Lemma splitlines_from_line l : forall cur s,
  no_linebreak l ->
  splitlines_from cur (l +:+ s) = splitlines_from (cur +:+ l) s.
Proof.
  induction l as [|c l IH]; intros cur s Hl.
  - rewrite append_empty_r. reflexivity.
  - unfold no_linebreak in Hl. simpl in Hl.
    apply andb_true_iff in Hl as [Hc Hl]. apply negb_true_iff in Hc.
    rewrite append_cons. simpl. rewrite Hc, (IH _ _ Hl), append_assoc.
    reflexivity.
Qed.

Lemma splitlines_from_break c s cur :
  py_islinebreak c = true ->
  (c = "013"%char -> forall s2, s <> String "010" s2) ->
  splitlines_from cur (String c s) = cur :: splitlines_from "" s.
Proof.
  intros Hc Hs. simpl. rewrite Hc. destruct s as [|c' s2]; [reflexivity|].
  destruct (Ascii.eqb_spec c "013") as [E|]; [|reflexivity].
  destruct (Ascii.eqb_spec c' "010") as [->|]; [|reflexivity].
  destruct (Hs E s2). reflexivity.
Qed.

Lemma line_not_LF_start l s s2 :
  no_linebreak l -> (forall s3, s <> String "010" s3) ->
  l +:+ s <> String "010" s2.
Proof.
  intros Hl Hs. destruct l as [|c l]; [apply Hs|].
  unfold no_linebreak in Hl. simpl in Hl.
  apply andb_true_iff in Hl as [Hc _]. rewrite append_cons.
  intros [= -> _]. discriminate Hc.
Qed.

Lemma manifest_CR_not_LF_start lines tail s2 :
  Forall no_linebreak lines -> no_linebreak tail ->
  manifest_of CR lines +:+ tail <> String "010" s2.
Proof.
  intros Hlines Htail. destruct Hlines as [|l lines Hl _].
  - change (manifest_of CR [] +:+ tail) with tail.
    rewrite <- (append_empty_r tail).
    apply line_not_LF_start; [exact Htail | discriminate].
  - cbn [manifest_of fold_right]. rewrite append_assoc.
    apply line_not_LF_start; [exact Hl | discriminate].
Qed.

(** Lines written with one of the usual terminators, and possibly a last
    line without terminator, are read back as they were written. *)
Lemma splitlines_manifest sep lines tail :
  line_terminator sep -> Forall no_linebreak lines -> no_linebreak tail ->
  splitlines (manifest_of sep lines +:+ tail)
  = lines ++ (if String.eqb tail "" then [] else [tail]).
Proof.
  intros Hsep Hlines Htail. unfold splitlines.
  induction Hlines as [|l lines Hl Hlines IH].
  - change (manifest_of sep [] +:+ tail) with tail.
    rewrite <- (append_empty_r tail) at 1.
    rewrite (splitlines_from_line tail "" "" Htail). reflexivity.
  - cbn [manifest_of fold_right]. fold (manifest_of sep lines).
    rewrite !append_assoc, (splitlines_from_line l "" _ Hl).
    change ("" +:+ l) with l. rewrite <- app_comm_cons. rewrite <- IH.
    destruct Hsep as [-> | [-> | ->]].
    + apply splitlines_from_break; [reflexivity | discriminate].
    + reflexivity.
    + apply splitlines_from_break; [reflexivity|].
      intros _ s2. apply manifest_CR_not_LF_start; assumption.
Qed.

End ManifestText.

(** ** The checksum matcher on arbitrary manifests *)

Section MatcherOutcomes.

Lemma parse_lines_head line rest filename :
  parse_lines (line :: rest) filename =
    match split line with
    | [h; name] =>
        if String.eqb name filename then Ok h
        else parse_lines rest filename
    | _ => parse_lines rest filename
    end.
Proof.
  simpl. destruct (split line) as [|a [|b [|c r]]]; reflexivity.
Qed.

Lemma parse_lines_sound lines filename h :
  parse_lines lines filename = Ok h ->
  exists pre line post,
    lines = pre ++ line :: post
    /\ Forall (no_entry filename) pre
    /\ split line = [h; filename].
Proof.
  induction lines as [|line lines IH]; [discriminate|].
  rewrite parse_lines_head.
  destruct (split line) as [|a [|b [|c r]]] eqn:E;
    try (intros H; destruct (IH H) as (pre & l & post & -> & Hpre & Hl);
         exists (line :: pre), l, post;
         split; [reflexivity|]; split; [|exact Hl];
         constructor; [|exact Hpre];
         apply no_entry_token_count; rewrite E; simpl; lia).
  destruct (String.eqb_spec b filename) as [->|Hne].
  - intros [= <-]. exists [], line, lines.
    split; [reflexivity|]. split; [constructor | exact E].
  - intros H. destruct (IH H) as (pre & l & post & -> & Hpre & Hl).
    exists (line :: pre), l, post.
    split; [reflexivity|]. split; [|exact Hl].
    constructor; [|exact Hpre].
    eapply no_entry_other_name; eassumption.
Qed.

(** X6.  A hash the lookup returns is the first token of a line of the
    manifest that consists of exactly that token and the file name, no
    earlier line being such a line for the file name; the hash is not
    empty and holds no white space. *)
Theorem parse_sha256_hash_sound
  (self : CachyOS) (hash_file_content filename h : string) :
  _parse_sha256_hash self hash_file_content filename = Ok h ->
  token h
  /\ exists pre line post,
       splitlines hash_file_content = pre ++ line :: post
       /\ Forall (no_entry filename) pre
       /\ split line = [h; filename].
Proof.
  unfold _parse_sha256_hash. intros H.
  destruct (parse_lines_sound _ _ _ H) as (pre & line & post & E & Hpre & Hl).
  split; [|exists pre, line, post; auto].
  pose proof (split_tokens line) as Ht. rewrite Hl in Ht.
  apply Forall_cons in Ht as [Ht _]. exact Ht.
Qed.

Lemma parse_sha256_hash_sound_witness :
  token "abc123"
  /\ exists pre line post,
       splitlines scenario_manifest = pre ++ line :: post
       /\ Forall (no_entry "cachyos-desktop-linux-v2.iso") pre
       /\ split line = ["abc123"; "cachyos-desktop-linux-v2.iso"].
Proof.
  apply (parse_sha256_hash_sound scenario_resolver scenario_manifest
           "cachyos-desktop-linux-v2.iso" "abc123").
  reflexivity.
Defined.

(** X7.  A file name that is empty or holds a white-space character is
    never found, whatever the manifest: the lookup raises its
    [ValueError]. *)
Theorem parse_sha256_hash_needs_token
  (self : CachyOS) (hash_file_content filename : string) :
  ~ token filename ->
  _parse_sha256_hash self hash_file_content filename =
    raise_msg ValueError
      ("Hash not found for the specified file: " +:+ filename).
Proof.
  intros Hf. unfold _parse_sha256_hash. apply parse_lines_no_match.
  apply List.Forall_forall. intros line _ h E. apply Hf.
  pose proof (split_tokens line) as Ht. rewrite E in Ht.
  apply Forall_cons in Ht as [_ Ht].
  apply Forall_cons in Ht as [Ht _]. exact Ht.
Qed.

Lemma parse_sha256_hash_needs_token_witness :
  _parse_sha256_hash scenario_resolver
    ("abc123  cachyos desktop.iso" +:+ LF) "cachyos desktop.iso"
  = raise_msg ValueError
      "Hash not found for the specified file: cachyos desktop.iso".
Proof.
  apply (parse_sha256_hash_needs_token scenario_resolver
           ("abc123  cachyos desktop.iso" +:+ LF) "cachyos desktop.iso").
  intros [_ H]. vm_compute in H. discriminate H.
Defined.

(** X8.  A manifest of one line that holds the hash and the file name,
    with any white space other than line boundaries before, between (at
    least one character) and after them, yields the hash. *)
Theorem parse_sha256_hash_any_spacing
  (self : CachyOS) (w1 h w2 filename w3 : string) :
  only_space w1 -> only_space w2 -> only_space w3 ->
  no_linebreak w1 -> no_linebreak w2 -> no_linebreak w3 ->
  w2 <> "" -> token h -> token filename ->
  _parse_sha256_hash self (w1 +:+ h +:+ w2 +:+ filename +:+ w3) filename
  = Ok h.
Proof.
  intros S1 S2 S3 L1 L2 L3 Hne Hh Hf.
  set (line := w1 +:+ h +:+ w2 +:+ filename +:+ w3).
  assert (Hline : no_linebreak line).
  { unfold line, no_linebreak. rewrite !all_chars_append.
    rewrite L1, L2, L3.
    rewrite (no_space_no_linebreak h (proj2 Hh)),
      (no_space_no_linebreak filename (proj2 Hf)). reflexivity. }
  assert (Hnonempty : line <> "").
  { intros E. assert (Hs : split line = []) by (rewrite E; reflexivity).
    unfold line in Hs. rewrite split_two_tokens in Hs by assumption.
    discriminate Hs. }
  unfold _parse_sha256_hash.
  pose proof (splitlines_manifest LF [] line (or_introl eq_refl)
                (List.Forall_nil _) Hline) as Hlines.
  change (manifest_of LF [] +:+ line) with line in Hlines.
  rewrite Hlines. simpl app.
  destruct (String.eqb_spec line ""); [congruence|].
  apply (parse_lines_first_match [] line [] h filename);
    [constructor|].
  apply split_two_tokens; assumption.
Qed.

Lemma parse_sha256_hash_any_spacing_witness :
  _parse_sha256_hash scenario_resolver
    (" " +:+ "abc123" +:+ String "009" "  " +:+ "file.iso" +:+ " ")
    "file.iso"
  = Ok "abc123".
Proof.
  apply (parse_sha256_hash_any_spacing scenario_resolver
           " " "abc123" (String "009" "  ") "file.iso" " ");
    try reflexivity; try discriminate; split; try reflexivity; discriminate.
Defined.

(** X9.  The outcome of the lookup does not depend on which of the usual
    terminators (LF, CR LF, CR) ends the lines of the manifest, nor on
    whether the last line is terminated. *)
Theorem parse_sha256_hash_line_terminators
  (self : CachyOS) (lines : list string) (tail filename sep1 sep2 : string) :
  line_terminator sep1 -> line_terminator sep2 ->
  Forall no_linebreak lines -> no_linebreak tail ->
  _parse_sha256_hash self (manifest_of sep1 lines +:+ tail) filename
  = _parse_sha256_hash self (manifest_of sep2 lines +:+ tail) filename
  /\ (tail <> "" ->
      _parse_sha256_hash self (manifest_of sep1 lines +:+ tail) filename
      = _parse_sha256_hash self (manifest_of sep2 (lines ++ [tail]))
          filename).
Proof.
  intros H1 H2 Hlines Htail. unfold _parse_sha256_hash.
  rewrite (splitlines_manifest sep1 lines tail H1 Hlines Htail),
    (splitlines_manifest sep2 lines tail H2 Hlines Htail).
  split; [reflexivity|]. intros Hne.
  rewrite <- (append_empty_r (manifest_of sep2 (lines ++ [tail]))).
  rewrite (splitlines_manifest sep2 (lines ++ [tail]) "" H2).
  - destruct (String.eqb_spec tail ""); [congruence|].
    simpl. rewrite app_nil_r. reflexivity.
  - apply List.Forall_app. split; [exact Hlines|].
    constructor; [exact Htail | constructor].
  - reflexivity.
Qed.

Lemma parse_sha256_hash_line_terminators_witness :
  _parse_sha256_hash scenario_resolver
    (manifest_of CRLF ["xyz999 other.iso"] +:+ "abc123 file.iso") "file.iso"
  = _parse_sha256_hash scenario_resolver
      (manifest_of LF ["xyz999 other.iso"] +:+ "abc123 file.iso") "file.iso"
  /\ ("abc123 file.iso" <> "" ->
      _parse_sha256_hash scenario_resolver
        (manifest_of CRLF ["xyz999 other.iso"] +:+ "abc123 file.iso")
        "file.iso"
      = _parse_sha256_hash scenario_resolver
          (manifest_of LF (["xyz999 other.iso"] ++ ["abc123 file.iso"]))
          "file.iso").
Proof.
  apply (parse_sha256_hash_line_terminators scenario_resolver
           ["xyz999 other.iso"] "abc123 file.iso" "file.iso" CRLF LF).
  - right. left. reflexivity.
  - left. reflexivity.
  - constructor; [reflexivity | constructor].
  - reflexivity.
Defined.

End MatcherOutcomes.

(** ** The constructor *)

Section Constructor.

Variable http : string -> result Response.
Variable html_parser : string -> BeautifulSoup.

Lemma lower_char_idempotent c : lower_char (lower_char c) = lower_char c.
Proof.
  destruct c as [[] [] [] [] [] [] [] []]; vm_compute; reflexivity.
Qed.

Lemma lower_idempotent s : lower (lower s) = lower s.
Proof.
  induction s as [|c s IH]; [reflexivity|].
  simpl. rewrite lower_char_idempotent, IH. reflexivity.
Qed.

(** *** The path of the file under the folder *)















(** X11.  The constructor reads its edition argument through
    [str.lower()] only: two spellings with the same lower-case form, and
    in particular a spelling and its lower-case form, give the same
    outcome and the same final state. *)
Theorem init_case_insensitive (folder_path ed1 ed2 : string) (s : state) :
  lower ed1 = lower ed2 ->
  __init__ http html_parser folder_path ed1 s
  = __init__ http html_parser folder_path ed2 s
  /\ __init__ http html_parser folder_path (lower ed1) s
     = __init__ http html_parser folder_path ed1 s.
Proof.
  intros H. unfold __init__. cbv zeta.
  rewrite lower_idempotent, H. split; reflexivity.
Qed.

End Constructor.

(** ** Memoization and the integrity check on arbitrary runs *)

Section Runs.

Variable http : string -> result Response.
Variable html_parser : string -> BeautifulSoup.
Variable sha256_of_file : string -> string.

Lemma failed_latest_version self s e :
  _get_latest_version_body self = Raise e ->
  cache_latest_version s !! self_id self = None ->
  _get_latest_version self s = (Raise e, count_body_run s).
Proof.
  intros Hbody Hnone. rewrite (get_latest_version_miss _ _ Hnone), Hbody.
  reflexivity.
Qed.

Lemma failed_download_link self s e :
  _get_latest_version_body self = Raise e ->
  cache_latest_version s !! self_id self = None ->
  cache_download_link s !! self_id self = None ->
  _get_download_link self s = (Raise e, count_body_run (count_body_run s)).
Proof.
  intros Hbody Hv Hu. rewrite (get_download_link_miss _ _ Hu).
  rewrite (failed_latest_version self (count_body_run s) e Hbody Hv).
  reflexivity.
Qed.

(** X12.  A failure is never memoized.  While the extraction fails, each
    call of [_get_download_link] runs both cached bodies again and raises
    the same exception: after [n] such calls the bodies have run [2 * n]
    times more and nothing is cached for the instance. *)
Theorem failures_not_memoized (self : CachyOS) (e : exn) (n : nat) :
  forall s,
  _get_latest_version_body self = Raise e ->
  cache_latest_version s !! self_id self = None ->
  cache_download_link s !! self_id self = None ->
  let s' := run_calls http html_parser sha256_of_file
              (repeat (Call_get_download_link self) n) s in
  _get_download_link self s' = (Raise e, count_body_run (count_body_run s'))
  /\ _get_latest_version self s' = (Raise e, count_body_run s')
  /\ cached_body_runs s' = cached_body_runs s + 2 * n
  /\ cache_latest_version s' !! self_id self = None
  /\ cache_download_link s' !! self_id self = None.
Proof.
  induction n as [|n IH]; intros s Hbody Hv Hu.
  - cbn zeta. simpl repeat. unfold run_calls. simpl fold_left.
    split; [apply failed_download_link; assumption|].
    split; [apply failed_latest_version; assumption|].
    split; [lia|]. split; assumption.
  - cbn zeta. simpl repeat. unfold run_calls. cbn [fold_left run_call].
    rewrite (failed_download_link self s e Hbody Hv Hu). cbn [snd].
    specialize (IH (count_body_run (count_body_run s)) Hbody Hv Hu).
    cbn zeta in IH. unfold run_calls in IH.
    destruct IH as (H1 & H2 & H3 & H4 & H5).
    split; [exact H1|]. split; [exact H2|].
    split; [rewrite H3; simpl; lia|]. split; assumption.
Qed.

(** X14.  When the extraction fails, the integrity check raises the
    extractor's exception and no request is issued. *)
Theorem check_integrity_version_failure (self : CachyOS) (s : state) (e : exn) :
  consistent self s ->
  _get_latest_version_body self = Raise e ->
  exists s',
    check_integrity http sha256_of_file self s = (Raise e, s')
    /\ requests_log s' = requests_log s.
Proof.
  intros [Hv Hu] Hbody.
  assert (Hv' : cache_latest_version s !! self_id self = None).
  { destruct (cache_latest_version s !! self_id self) as [v|] eqn:E;
      [|reflexivity].
    rewrite (Hv v eq_refl) in Hbody. discriminate. }
  assert (Hu' : cache_download_link s !! self_id self = None).
  { destruct (cache_download_link s !! self_id self) as [u|] eqn:E;
      [|reflexivity].
    destruct (Hu u eq_refl) as (v & Hv2 & _).
    rewrite Hv2 in Hbody. discriminate. }
  eexists. unfold check_integrity, bind.
  rewrite (failed_download_link self s e Hbody Hv' Hu').
  split; reflexivity.
Qed.

(** X15.  When the version resolves to [v], the integrity check issues
    exactly one request, for the download link followed by [.sha256],
    whatever its outcome; an error of the transport is raised
    unchanged. *)
Theorem check_integrity_one_request (self : CachyOS) (s : state) (v : obj) :
  consistent self s ->
  _get_latest_version_body self = Ok v ->
  let url := download_link_of self v +:+ ".sha256" in
  requests_log (snd (check_integrity http sha256_of_file self s))
  = url :: requests_log s
  /\ forall e, http url = Raise e ->
               fst (check_integrity http sha256_of_file self s) = Raise e.
Proof.
  intros Hc Hbody url.
  destruct (get_download_link_consistent _ _ _ Hc Hbody)
    as (s1 & Hlink & Hc1 & Hlog1).
  pose proof (consistent_log_request self url s1 Hc1) as Hc2.
  destruct (get_latest_version_consistent _ _ _ Hc2 Hbody)
    as (s2 & Hver & Hc3 & Hlog2).
  destruct (get_latest_version_consistent _ _ _ Hc3 Hbody)
    as (s3 & Hver' & _ & Hlog3).
  unfold check_integrity, bind, requests_get, lift,
    _get_complete_normalized_file_path, ret.
  rewrite Hlink. fold url.
  destruct (http url) as [response|e'] eqn:Hhttp.
  - rewrite Hver. split; [|discriminate].
    destruct (_parse_sha256_hash _ _ _) as [h|e'].
    + unfold bind. rewrite Hver'. cbn [snd].
      rewrite Hlog3, Hlog2. simpl. rewrite Hlog1. reflexivity.
    + cbn [snd]. rewrite Hlog2. simpl. rewrite Hlog1. reflexivity.
  - split; [simpl; rewrite Hlog1; reflexivity|].
    intros e [= <-]. reflexivity.
Qed.

Lemma ids_allocated_run_call (c : call) (s : state) :
  call_on (fun other => self_id other < next_id s) c ->
  ids_allocated s ->
  ids_allocated (run_call http html_parser sha256_of_file c s)
  /\ next_id s <= next_id (run_call http html_parser sha256_of_file c s).
Proof.
  intros Hc Hs.
  apply (preserves_run_call http html_parser sha256_of_file
           (fun other => self_id other < next_id s)
           (fun st => ids_allocated st /\ next_id s <= next_id st));
    [ | | | | | exact Hc | split; [exact Hs | lia] ].
  - intros st H. exact H.
  - intros url st H. exact H.
  - intros st [Hids Hle]. split; [|simpl; lia].
    intros i Hi. simpl. specialize (Hids i Hi). lia.
  - intros other v st Hother _ _ [Hids Hle]. split; [|exact Hle].
    intros i [Hi|Hi]; simpl in *.
    + destruct (decide (i = self_id other)) as [->|Hne]; [lia|].
      rewrite lookup_insert_ne in Hi by congruence. apply Hids. auto.
    + apply Hids. auto.
  - intros other v st Hother _ _ [Hids Hle]. split; [|exact Hle].
    intros i [Hi|Hi]; simpl in *.
    + apply Hids. auto.
    + destruct (decide (i = self_id other)) as [->|Hne]; [lia|].
      rewrite lookup_insert_ne in Hi by congruence. apply Hids. auto.
Qed.

Lemma ids_allocated_run_calls (cs : list call) : forall s,
  calls_on_created http html_parser sha256_of_file cs s ->
  ids_allocated s ->
  ids_allocated (run_calls http html_parser sha256_of_file cs s).
Proof.
  induction cs as [|c cs IH]; intros s Hcs Hs; [exact Hs|].
  destruct Hcs as [Hc Hcs].
  apply IH; [exact Hcs|]. apply ids_allocated_run_call; assumption.
Qed.

Lemma ids_allocated_initial_state : ids_allocated initial_state.
Proof.
  intros i [[x H]|[x H]]; simpl in H; rewrite lookup_empty in H;
    discriminate.
Qed.

(** X17.  A resolver constructed after any run of calls on instances
    created so far finds nothing memoized for itself: its first
    [_get_download_link] runs both cached bodies. *)
Theorem new_resolver_starts_unmemoized
  (cs : list call) (folder_path ed : string) (new : CachyOS) (s' : state) :
  calls_on_created http html_parser sha256_of_file cs initial_state ->
  __init__ http html_parser folder_path ed
    (run_calls http html_parser sha256_of_file cs initial_state)
  = (Ok new, s') ->
  cache_latest_version s' !! self_id new = None
  /\ cache_download_link s' !! self_id new = None
  /\ cached_body_runs (snd (_get_download_link new s'))
     = cached_body_runs s' + 2.
Proof.
  intros Hcs Hinit.
  pose proof (ids_allocated_run_calls cs initial_state Hcs
                ids_allocated_initial_state) as Hids.
  destruct (init_fresh_cache http html_parser folder_path ed _ _ _
              Hids Hinit) as (_ & Hv & Hu).
  split; [exact Hv|]. split; [exact Hu|].
  rewrite (get_download_link_miss _ _ Hu).
  rewrite (get_latest_version_miss new (count_body_run s') Hv).
  destruct (_get_latest_version_body new); simpl; lia.
Qed.

End Runs.

(** ** The further properties at concrete inputs *)


Lemma init_case_insensitive_witness :
  __init__ (constant_network 200 "") scenario_parser "/isos" "DESKTOP"
    initial_state
  = __init__ (constant_network 200 "") scenario_parser "/isos" "DeskTop"
      initial_state
  /\ __init__ (constant_network 200 "") scenario_parser "/isos"
       (lower "DESKTOP") initial_state
     = __init__ (constant_network 200 "") scenario_parser "/isos" "DESKTOP"
         initial_state.
Proof.
  apply (init_case_insensitive (constant_network 200 "") scenario_parser
           "/isos" "DESKTOP" "DeskTop" initial_state).
  reflexivity.
Defined.

Lemma failures_not_memoized_witness :
  let s' := run_calls (constant_network 200 "") scenario_parser
              (fun _ => "abc123")
              (repeat (Call_get_download_link (resolver_on 0 [])) 3)
              initial_state in
  _get_download_link (resolver_on 0 []) s'
  = (raise_msg VersionNotFoundError msg_not_parsed,
     count_body_run (count_body_run s'))
  /\ _get_latest_version (resolver_on 0 []) s'
     = (raise_msg VersionNotFoundError msg_not_parsed, count_body_run s')
  /\ cached_body_runs s' = cached_body_runs initial_state + 2 * 3
  /\ cache_latest_version s' !! self_id (resolver_on 0 []) = None
  /\ cache_download_link s' !! self_id (resolver_on 0 []) = None.
Proof.
  apply (failures_not_memoized (constant_network 200 "") scenario_parser
           (fun _ => "abc123") (resolver_on 0 [])
           (mk_exn VersionNotFoundError (Some msg_not_parsed)) 3
           initial_state);
    reflexivity.
Defined.


Lemma check_integrity_version_failure_witness :
  exists s',
    check_integrity (constant_network 200 scenario_manifest)
      (fun _ => "abc123") (resolver_on 0 [link "notaversion/" "bad"])
      initial_state
    = (raise_msg VersionNotFoundError msg_no_version, s')
    /\ requests_log s' = requests_log initial_state.
Proof.
  apply (check_integrity_version_failure
           (constant_network 200 scenario_manifest) (fun _ => "abc123")
           (resolver_on 0 [link "notaversion/" "bad"]) initial_state
           (mk_exn VersionNotFoundError (Some msg_no_version))).
  - apply consistent_initial_state.
  - reflexivity.
Defined.

Lemma check_integrity_one_request_witness :
  requests_log
    (snd (check_integrity (constant_network 404 "404 Not Found")
            (fun _ => "abc123") scenario_resolver initial_state))
  = ["https://cdn.cachyos.org/ISO/desktop/v2/cachyos-desktop-linux-v2.iso.sha256"].
Proof.
  apply (proj1 (check_integrity_one_request
                  (constant_network 404 "404 Not Found") (fun _ => "abc123")
                  scenario_resolver initial_state (PyStr "v2")
                  (consistent_initial_state scenario_resolver) eq_refl)).
Defined.

Lemma consistent_run_calls_witness :
  consistent scenario_resolver
    (run_calls (constant_network 200 scenario_manifest) scenario_parser
       (fun _ => "abc123")
       [Call_init "/isos" "desktop";
        Call_check_integrity scenario_resolver;
        Call_get_download_link (resolver_on 1 [link "250101/" "v9"]);
        Call_get_latest_version scenario_resolver]
       initial_state).
Proof.
  apply (consistent_run_calls (constant_network 200 scenario_manifest)
           scenario_parser (fun _ => "abc123") scenario_resolver).
  - repeat (apply List.Forall_cons;
            [first [exact I | intros _; reflexivity | discriminate]|]).
    apply List.Forall_nil.
  - apply consistent_initial_state.
Defined.

Lemma new_resolver_starts_unmemoized_witness :
  let new :=
    mk_CachyOS 1 ["desktop"; "handheld"] "handheld"
      "/isos/cachyos-[[EDITION]]-linux-[[VER]].iso" (mk_Response 200 "" "")
      (scenario_parser "") in
  let s' :=
    snd (__init__ (constant_network 200 "") scenario_parser "/isos"
           "handheld"
           (run_calls (constant_network 200 "") scenario_parser
              (fun _ => "abc123")
              [Call_init "/isos" "desktop";
               Call_get_download_link scenario_resolver]
              initial_state)) in
  cache_latest_version s' !! self_id new = None
  /\ cache_download_link s' !! self_id new = None
  /\ cached_body_runs (snd (_get_download_link new s'))
     = cached_body_runs s' + 2.
Proof.
  cbv zeta.
  apply (new_resolver_starts_unmemoized (constant_network 200 "")
           scenario_parser (fun _ => "abc123")
           [Call_init "/isos" "desktop";
            Call_get_download_link scenario_resolver]
           "/isos" "handheld").
  - split; [exact I|]. split; [vm_compute; lia | exact I].
  - vm_compute. reflexivity.
Defined.
